(** * The pane view orchestrator of dockview

    A shallow embedding of [packages/splitview/src/paneview/paneviewComponent.ts]:
    the [DefaultHeader], the [PaneFramework] panel and the
    [PaneviewComponent] orchestrator with its operations [addPanel],
    [removePanel], [movePanel], [getPanel], [layout], [resizeToFit],
    [toJSON] and [fromJSON].

    The orchestrator is JavaScript code that mutates objects and may throw.
    It is embedded in a state-and-exception monad over a [World] holding the
    orchestrator's fields, the panel objects (by reference), the host's timer
    queue and a trace of the calls made on collaborators.  The Layout Engine
    (class [Paneview]) is not part of the embedded sources: it is an
    interface, [LayoutEngine], over which every operation is generic.

    Left out: the creation of DOM elements, the [Emitter] behind
    [onDidLayoutChange] and the bookkeeping of [CompositeDisposable]; no
    operation of the orchestrator reads them back. *)

From stdpp Require Import gmap strings list.
From Stdlib Require Import ZArith Lia.

Local Open Scope Z_scope.

(** ** Values *)

(** A JavaScript [number].  The orchestrator only passes pixel sizes through
    and compares indices; it does no arithmetic on them. *)
Definition number : Type := Z.

(** The values of [{ [index: string]: any }] objects. *)
Inductive JsValue : Type :=
| JsNumber (n : number)
| JsString (s : string)
| JsBoolean (b : bool).

Abbreviation Params := (gmap string JsValue).

(** [Orientation], [Sizing] and [LayoutPriority] of [splitview/core/splitview]:
    enumerations of which the orchestrator names [HORIZONTAL], [VERTICAL] and
    [Sizing.Distribute]. *)
Inductive Orientation : Type := HORIZONTAL | VERTICAL.
Inductive Sizing : Type := Distribute.
Inductive LayoutPriority : Type := Low | High | Normal.

(** The type [Sizing | number] of the size handed to the Layout Engine. *)
Inductive SizeArg : Type :=
| Pixels (n : number)
| Mode (s : Sizing).

#[global] Instance Orientation_eq_dec : EqDecision Orientation.
Proof. solve_decision. Defined.
#[global] Instance Sizing_eq_dec : EqDecision Sizing.
Proof. solve_decision. Defined.
#[global] Instance SizeArg_eq_dec : EqDecision SizeArg.
Proof. unfold number. solve_decision. Defined.

(** JavaScript truthiness of an optional string ([undefined] and the empty
    string are falsy) and of an optional boolean. *)
Definition truthy_string (s : option string) : bool :=
  match s with
  | Some EmptyString => false
  | Some _ => true
  | None => false
  end.

Definition truthy_bool (b : option bool) : bool := default false b.

(** ** The serialized document *)

Record SerializedPanelData : Type := {
  data_id : string;
  data_component : string;
  data_title : string;
  data_headerComponent : option string;
  data_params : option Params;
  data_state : option Params
}.

Record SerializedPaneviewPanel : Type := {
  view_snap : option bool;
  view_priority : option LayoutPriority;
  view_minimumSize : option number;
  view_maximumSize : option number;
  view_data : SerializedPanelData;
  view_size : number;
  view_expanded : option bool
}.

Record SerializedPaneview : Type := {
  doc_size : number;
  doc_views : list SerializedPaneviewPanel
}.

(** ** Errors and the effect monad *)

Inductive Error : Type :=
| ResolutionError (id kind : string).

Inductive Result (A : Type) : Type :=
| Ok (a : A)
| Throw (e : Error).
Arguments Ok {A} a.
Arguments Throw {A} e.

(** A computation may change the world and then either return or throw; what
    it changed before throwing stays changed. *)
Definition M (W A : Type) : Type := W -> W * Result A.

Definition ret {W A} (a : A) : M W A := fun w => (w, Ok a).

Definition throw {W A} (e : Error) : M W A := fun w => (w, Throw e).

Definition bind {W A B} (m : M W A) (k : A -> M W B) : M W B :=
  fun w =>
    match m w with
    | (w', Ok a) => k a w'
    | (w', Throw e) => (w', Throw e)
    end.

Definition gets {W A} (f : W -> A) : M W A := fun w => (w, Ok (f w)).

Definition modify {W} (f : W -> W) : M W unit := fun w => (f w, Ok tt).

Definition liftResult {W A} (r : Result A) : M W A := fun w => (w, r).

Notation "x <- m ;; k" := (bind m (fun x => k))
  (at level 100, m at next level, right associativity).
Notation "m ;;; k" := (bind m (fun _ => k))
  (at level 100, right associativity).

(** [Array.prototype.forEach] with an effectful callback. *)
Fixpoint forEach {W A} (f : A -> M W unit) (l : list A) : M W unit :=
  match l with
  | [] => ret tt
  | x :: l' => f x ;;; forEach f l'
  end.

(** [Array.prototype.map] with an effectful callback, left to right. *)
Fixpoint mapM {W A B} (f : A -> M W B) (l : list A) : M W (list B) :=
  match l with
  | [] => ret []
  | x :: l' => y <- f x ;; ys <- mapM f l' ;; ret (y :: ys)
  end.

(** [Array.prototype.findIndex]: the first index whose element satisfies the
    predicate, [-1] when there is none. *)
Fixpoint findIndex_from {A} (f : A -> bool) (l : list A) (i : Z) : Z :=
  match l with
  | [] => -1
  | x :: l' => if f x then i else findIndex_from f l' (i + 1)
  end.

Definition findIndex {A} (f : A -> bool) (l : list A) : Z :=
  findIndex_from f l 0.

(** ** Renderers and the Component Factory *)

(** The [createComponent] function of a framework wrapper, an opaque value
    that the orchestrator only hands on to the factory. *)
Inductive FrameworkCreate : Type :=
| FrameworkCreateFn (name : string).

Record FrameworkWrapper : Type := {
  wrapper_body : FrameworkCreate;
  wrapper_header : FrameworkCreate
}.

(** What the factory returns: a body or header part. *)
Record Renderer : Type := {
  renderer_id : string;
  renderer_component : string;
  renderer_via : option FrameworkCreate
}.

(** Modelled from the spec: [createComponent] of [panel/componentFactory],
    which is not among the embedded sources.  It resolves a component kind in
    the registry of plain components or in the registry of framework
    components, and fails with a [ResolutionError] when the kind matches no
    entry in either registry.  A registry is a JavaScript object used as a
    map; only its keys matter here. *)
Definition createComponent (id componentName : string)
    (components : gset string) (frameworkComponents : option (gset string))
    (createFrameworkComponent : option FrameworkCreate) : Result Renderer :=
  if decide (componentName ∈ components) then
    Ok {| renderer_id := id; renderer_component := componentName;
          renderer_via := None |}
  else if decide (componentName ∈ default ∅ frameworkComponents) then
    Ok {| renderer_id := id; renderer_component := componentName;
          renderer_via := createFrameworkComponent |}
  else Throw (ResolutionError id componentName).

Record PaneviewComponentOptions : Type := {
  components : option (gset string);
  frameworkComponents : option (gset string);
  headerComponents : option (gset string);
  headerframeworkComponents : option (gset string);
  frameworkWrapper : option FrameworkWrapper
}.

(** ** Panels *)

(** A panel is an object; the orchestrator, the Layout Engine and the queued
    closures of [fromJSON] share it by reference. *)
Abbreviation PanelRef := nat.

(** [new PaneviewApi(this)]: the handle back to the orchestrator. *)
Inductive PaneviewApi : Type := mkPaneviewApi.

(** [PanePanelApi], the control surface of one panel. *)
Record PanePanelApi : Type := { api_panel : PanelRef }.

Record PanePanelInitParameter : Type := {
  init_params : Params;
  init_minimumBodySize : option number;
  init_maximumBodySize : option number;
  init_isExpanded : option bool;
  init_title : string;
  init_containerApi : PaneviewApi
}.

(** The fields of [DefaultHeader]: [apiRef.api] and the text of [_element]. *)
Record DefaultHeader : Type := {
  apiRef : option PanePanelApi;
  textContent : string
}.

Inductive HeaderPart : Type :=
| DefaultHeaderPart (h : DefaultHeader)
| CustomHeaderPart (r : Renderer).

(** [PaneFramework]: the constructor's options, and the state that the base
    class [PaneviewPanel] keeps ([panel_init], [panel_expanded]).

    Modelled from the spec: the base class [PaneviewPanel] is not among the
    embedded sources.  A panel owns its expansion flag, carries the optional
    minimum and maximum body sizes, and remembers the parameters of [init]
    that [toJSON] needs (title and params). *)
Record PaneFramework : Type := {
  panel_id : string;
  panel_component : string;
  panel_headerComponent : option string;
  panel_body : Renderer;
  panel_header : HeaderPart;
  panel_orientation : Orientation;
  panel_init : option PanePanelInitParameter;
  panel_expanded : bool
}.

Definition getBodyComponent (p : PaneFramework) : Renderer := panel_body p.
Definition getHeaderComponent (p : PaneFramework) : HeaderPart := panel_header p.

(** ** The Layout Engine *)

Record ViewDescriptor : Type := {
  descriptor_view_size : number;
  descriptor_view : PanelRef
}.

Record Descriptor : Type := {
  descriptor_size : number;
  descriptor_views : list ViewDescriptor
}.

Record PaneviewOptions : Type := {
  paneview_orientation : Orientation;
  paneview_descriptor : option Descriptor
}.

(** The contract of class [Paneview] that the orchestrator consumes.  [E] is
    the state of one engine instance; an operation that mutates the engine
    returns its next state.  What an engine does to its panes when it is
    disposed or when a pane is removed (the disposal of their renderers) is
    inside the engine and is not modelled: panel objects carry no disposed
    state, and nothing below is stated about it. *)
Class LayoutEngine (E : Type) : Type := {
  newPaneview : PaneviewOptions -> E;
  addPane : PanelRef -> SizeArg -> option number -> E -> E;
  removePane : number -> E -> E;
  moveView : number -> number -> E -> E;
  getPanes : E -> list PanelRef;
  getViewSize : number -> E -> number;
  engineLayout : number -> number -> E -> E;
  engineSize : E -> number;
  orthogonalSize : E -> number;
  engineMinimumSize : E -> number;
  engineMaximumSize : E -> number;
  orientation : E -> Orientation;
  engineDispose : E -> E
}.

(** ** The world *)

(** A closure pushed on the queue of [fromJSON]: it captures the panel and the
    serialized view it was built from. *)
Record InitThunk : Type := {
  thunk_panel : PanelRef;
  thunk_view : SerializedPaneviewPanel
}.

Record DOMRect : Type := { rect_width : number; rect_height : number }.
Record HTMLElement : Type := { boundingClientRect : DOMRect }.

(** Calls made on the collaborators, in program order. *)
Inductive Event : Type :=
| CallDispose
| CallNewPaneview (o : PaneviewOptions)
| CallAddPane (p : PanelRef) (s : SizeArg) (i : option number)
| CallRemovePane (i : number)
| CallMoveView (from to : number)
| CallLayout (size orthogonal : number)
| CallInit (p : PanelRef) (params : PanePanelInitParameter)
| CallGetBoundingClientRect
| CallSetTimeout (n : nat)
| CallIsExpanded (p : PanelRef)
| CallSetExpanded (p : PanelRef) (b : bool).

Record World (E : Type) : Type := {
  paneview : E;
  options : PaneviewComponentOptions;
  parentElement : option HTMLElement;
  heap : list PaneFramework;
  timers : list (list InitThunk);
  trace : list Event
}.
Arguments paneview {E} _.
Arguments options {E} _.
Arguments parentElement {E} _.
Arguments heap {E} _.
Arguments timers {E} _.
Arguments trace {E} _.

Definition set_paneview {E} (e : E) (w : World E) : World E :=
  {| paneview := e; options := options w; parentElement := parentElement w;
     heap := heap w; timers := timers w; trace := trace w |}.

Definition set_heap {E} (h : list PaneFramework) (w : World E) : World E :=
  {| paneview := paneview w; options := options w;
     parentElement := parentElement w; heap := h; timers := timers w;
     trace := trace w |}.

Definition set_timers {E} (t : list (list InitThunk)) (w : World E) : World E :=
  {| paneview := paneview w; options := options w;
     parentElement := parentElement w; heap := heap w; timers := t;
     trace := trace w |}.

Definition set_parentElement {E} (p : option HTMLElement) (w : World E)
    : World E :=
  {| paneview := paneview w; options := options w; parentElement := p;
     heap := heap w; timers := timers w; trace := trace w |}.

(** The world after further calls were made on collaborators. *)
Definition logged {E} (evs : list Event) (w : World E) : World E :=
  {| paneview := paneview w; options := options w;
     parentElement := parentElement w; heap := heap w; timers := timers w;
     trace := trace w ++ evs |}.

Definition log {E} (ev : Event) : M (World E) unit :=
  fun w => (logged [ev] w, Ok tt).

(** ** Panel objects in the heap *)

Definition allocPanel {E} (p : PaneFramework) : M (World E) PanelRef :=
  fun w => (set_heap (heap w ++ [p]) w, Ok (length (heap w))).

Definition updatePanel {E} (r : PanelRef) (f : PaneFramework -> PaneFramework)
    : M (World E) unit :=
  modify (fun w => set_heap (alter f r (heap w)) w).

Definition set_panel_orientation (o : Orientation) (p : PaneFramework)
    : PaneFramework :=
  {| panel_id := panel_id p; panel_component := panel_component p;
     panel_headerComponent := panel_headerComponent p;
     panel_body := panel_body p; panel_header := panel_header p;
     panel_orientation := o; panel_init := panel_init p;
     panel_expanded := panel_expanded p |}.

Definition set_panel_expanded (b : bool) (p : PaneFramework) : PaneFramework :=
  {| panel_id := panel_id p; panel_component := panel_component p;
     panel_headerComponent := panel_headerComponent p;
     panel_body := panel_body p; panel_header := panel_header p;
     panel_orientation := panel_orientation p; panel_init := panel_init p;
     panel_expanded := b |}.

(** ** The default header *)

(** The constructor: [apiRef = { api: null }] and an empty [div]. *)
Definition header_new : DefaultHeader :=
  {| apiRef := None; textContent := EmptyString |}.

(** [DefaultHeader.init]. *)
Definition header_init (params : PanePanelInitParameter) (api : PanePanelApi)
    (h : DefaultHeader) : DefaultHeader :=
  {| apiRef := Some api; textContent := init_title params |}.

(** [DefaultHeader.update] has an empty body. *)
Definition header_update (h : DefaultHeader) : DefaultHeader := h.

(** Modelled from the spec: [PanePanelApi] is not among the embedded sources.
    Its [isExpanded] reads the expansion flag that the panel owns, and
    [setExpanded] writes it. *)
Definition api_isExpanded {E} (api : PanePanelApi) : M (World E) bool :=
  log (CallIsExpanded (api_panel api)) ;;;
  gets (fun w => from_option panel_expanded false (heap w !! api_panel api)).

Definition api_setExpanded {E} (api : PanePanelApi) (b : bool)
    : M (World E) unit :=
  log (CallSetExpanded (api_panel api) b) ;;;
  updatePanel (api_panel api) (set_panel_expanded b).

(** The click listener registered by the constructor:
    [this.apiRef.api?.setExpanded(!this.apiRef.api.isExpanded)]. *)
Definition header_click {E} (h : DefaultHeader) : M (World E) unit :=
  match apiRef h with
  | None => ret tt
  | Some api => b <- api_isExpanded api ;; api_setExpanded api (negb b)
  end.

(** ** The panel wrapper *)

(** Modelled from the spec: [PaneviewPanel.init] is not among the embedded
    sources.  It keeps the parameters, sets the expansion flag (absent means
    collapsed) and forwards to the header, which gets the title and the
    panel's control surface. *)
Definition init_panel (r : PanelRef) (params : PanePanelInitParameter)
    (p : PaneFramework) : PaneFramework :=
  {| panel_id := panel_id p; panel_component := panel_component p;
     panel_headerComponent := panel_headerComponent p;
     panel_body := panel_body p;
     panel_header :=
       match panel_header p with
       | DefaultHeaderPart h =>
           DefaultHeaderPart (header_init params {| api_panel := r |} h)
       | CustomHeaderPart c => CustomHeaderPart c
       end;
     panel_orientation := panel_orientation p;
     panel_init := Some params;
     panel_expanded := truthy_bool (init_isExpanded params) |}.

Definition panelInit {E} (r : PanelRef) (params : PanePanelInitParameter)
    : M (World E) unit :=
  log (CallInit r params) ;;; updatePanel r (init_panel r params).

(** Modelled from the spec: [PaneviewPanel.toJSON] returns the minimal
    descriptor [{id, component, headerComponent?, title, params}]. *)
Definition panelToJSON (p : PaneFramework) : SerializedPanelData :=
  {| data_id := panel_id p; data_component := panel_component p;
     data_title := from_option init_title EmptyString (panel_init p);
     data_headerComponent := panel_headerComponent p;
     data_params := init_params <$> panel_init p;
     data_state := None |}.

Definition minimumBodySize (p : PaneFramework) : option number :=
  panel_init p ≫= init_minimumBodySize.

Definition maximumBodySize (p : PaneFramework) : option number :=
  panel_init p ≫= init_maximumBodySize.

Definition isExpanded (p : PaneFramework) : bool := panel_expanded p.

(** The object behind a reference.  References are created by [allocPanel]
    only and objects are never freed, so the default is never used on a world
    built by the orchestrator. *)
Definition nullPanel : PaneFramework :=
  {| panel_id := EmptyString; panel_component := EmptyString;
     panel_headerComponent := None;
     panel_body := {| renderer_id := EmptyString;
                      renderer_component := EmptyString;
                      renderer_via := None |};
     panel_header := DefaultHeaderPart header_new;
     panel_orientation := VERTICAL; panel_init := None;
     panel_expanded := false |}.

Definition deref {E} (w : World E) (r : PanelRef) : PaneFramework :=
  default nullPanel (heap w !! r).

(** ** The orchestrator *)

Record AddPaneviewCompponentOptions : Type := {
  add_id : string;
  add_component : string;
  add_headerComponent : option string;
  add_params : option Params;
  add_minimumBodySize : option number;
  add_maximumBodySize : option number;
  add_isExpanded : option bool;
  add_title : string;
  add_index : option number;
  add_size : option number
}.

Section Orchestrator.
Context {E : Type} `{LayoutEngine E}.

Local Abbreviation W := (World E).

Record IDisposable : Type := { dispose : M W unit }.

(** A call on [this.paneview] that mutates the engine. *)
Definition callEngine (ev : Event) (f : E -> E) : M W unit :=
  log ev ;;; modify (fun w => set_paneview (f (paneview w)) w).

(** The constructor of [PaneviewComponent].  The options object is the
    caller's own and the orchestrator reads it at each call; changes that the
    caller makes to it later are not modelled. *)
Definition newPaneviewComponent (parent : option HTMLElement)
    (opts : PaneviewComponentOptions) : W :=
  {| paneview := newPaneview {| paneview_orientation := VERTICAL;
                                paneview_descriptor := None |};
     options :=
       {| components := Some (default ∅ (components opts));
          frameworkComponents := Some (default ∅ (frameworkComponents opts));
          headerComponents := headerComponents opts;
          headerframeworkComponents := headerframeworkComponents opts;
          frameworkWrapper := frameworkWrapper opts |};
     parentElement := parent; heap := []; timers := []; trace := [] |}.

Definition minimumSize (w : W) : number := engineMinimumSize (paneview w).
Definition maximumSize (w : W) : number := engineMaximumSize (paneview w).

Definition height (w : W) : number :=
  if decide (orientation (paneview w) = HORIZONTAL)
  then orthogonalSize (paneview w)
  else engineSize (paneview w).

Definition width (w : W) : number :=
  if decide (orientation (paneview w) = HORIZONTAL)
  then engineSize (paneview w)
  else orthogonalSize (paneview w).

Definition focus : M W unit := ret tt.

(** The body part of a panel, as [addPanel] and [fromJSON] both build it. *)
Definition createBody (opts : PaneviewComponentOptions)
    (id component : string) : Result Renderer :=
  createComponent id component
    (default ∅ (components opts))
    (Some (default ∅ (frameworkComponents opts)))
    (wrapper_body <$> frameworkWrapper opts).

(** The header part in [addPanel]: the registry of framework headers is
    passed as it is. *)
Definition createHeader_add (opts : PaneviewComponentOptions)
    (id : string) (headerComponent : option string) : Result HeaderPart :=
  if truthy_string headerComponent then
    match createComponent id (default EmptyString headerComponent)
            (default ∅ (headerComponents opts))
            (headerframeworkComponents opts)
            (wrapper_header <$> frameworkWrapper opts) with
    | Ok r => Ok (CustomHeaderPart r)
    | Throw e => Throw e
    end
  else Ok (DefaultHeaderPart header_new).

(** The header part in [fromJSON]: an absent registry of framework headers
    is replaced by an empty one. *)
Definition createHeader_from (opts : PaneviewComponentOptions)
    (id : string) (headerComponent : option string) : Result HeaderPart :=
  if truthy_string headerComponent then
    match createComponent id (default EmptyString headerComponent)
            (default ∅ (headerComponents opts))
            (Some (default ∅ (headerframeworkComponents opts)))
            (wrapper_header <$> frameworkWrapper opts) with
    | Ok r => Ok (CustomHeaderPart r)
    | Throw e => Throw e
    end
  else Ok (DefaultHeaderPart header_new).

Definition newPaneFramework (id component : string)
    (headerComponent : option string) (header : HeaderPart)
    (body : Renderer) (o : Orientation) : PaneFramework :=
  {| panel_id := id; panel_component := component;
     panel_headerComponent := headerComponent;
     panel_body := body; panel_header := header;
     panel_orientation := o; panel_init := None;
     panel_expanded := false |}.

Definition addPanel (o : AddPaneviewCompponentOptions) : M W IDisposable :=
  opts <- gets options ;;
  body <- liftResult (createBody opts (add_id o) (add_component o)) ;;
  header <- liftResult
              (createHeader_add opts (add_id o) (add_headerComponent o)) ;;
  view <- allocPanel (newPaneFramework (add_id o) (add_component o)
                        (add_headerComponent o) header body VERTICAL) ;;
  let size := match add_size o with
              | Some n => Pixels n
              | None => Mode Distribute
              end in
  let index := match add_index o with
               | Some i => Some i
               | None => None
               end in
  callEngine (CallAddPane view size index) (addPane view size index) ;;;
  panelInit view
    {| init_params := default ∅ (add_params o);
       init_minimumBodySize := add_minimumBodySize o;
       init_maximumBodySize := add_maximumBodySize o;
       init_isExpanded := add_isExpanded o;
       init_title := add_title o;
       init_containerApi := mkPaneviewApi |} ;;;
  eo <- gets (fun w => orientation (paneview w)) ;;
  updatePanel view (set_panel_orientation eo) ;;;
  ret {| dispose := ret tt |}.

Definition getPanels (w : W) : list PanelRef := getPanes (paneview w).

Definition removePanel (panel : PanelRef) : M W unit :=
  views <- gets getPanels ;;
  let index := findIndex (fun v => bool_decide (v = panel)) views in
  callEngine (CallRemovePane index) (removePane index).

Definition movePanel (from to : number) : M W unit :=
  callEngine (CallMoveView from to) (moveView from to).

Definition getPanel (id : string) (w : W) : option PanelRef :=
  List.find (fun view => bool_decide (panel_id (deref w view) = id))
    (getPanels w).

Definition layout (width height : number) : M W unit :=
  eo <- gets (fun w => orientation (paneview w)) ;;
  let '(size, orthogonal) :=
    if decide (eo = HORIZONTAL) then (width, height) else (height, width) in
  callEngine (CallLayout size orthogonal) (engineLayout size orthogonal).

Definition resizeToFit : M W unit :=
  parent <- gets parentElement ;;
  match parent with
  | None => ret tt
  | Some p =>
      log CallGetBoundingClientRect ;;;
      let rect := boundingClientRect p in
      layout (rect_width rect) (rect_height rect)
  end.

Definition toJSON (w : W) : SerializedPaneview :=
  let views :=
    imap (fun i view =>
            let size := getViewSize (Z.of_nat i) (paneview w) in
            {| view_snap := None; view_priority := None;
               view_minimumSize := minimumBodySize (deref w view);
               view_maximumSize := maximumBodySize (deref w view);
               view_data := panelToJSON (deref w view);
               view_size := size;
               view_expanded := Some (isExpanded (deref w view)) |})
         (getPanes (paneview w)) in
  {| doc_size := engineSize (paneview w); doc_views := views |}.

(** The parameters that a closure queued by [fromJSON] hands to [init]. *)
Definition thunkParameters (t : InitThunk) : PanePanelInitParameter :=
  let view := thunk_view t in
  let data := view_data view in
  {| init_params := default ∅ (data_params data);
     init_minimumBodySize := view_minimumSize view;
     init_maximumBodySize := view_maximumSize view;
     init_isExpanded := Some (truthy_bool (view_expanded view));
     init_title := data_title data;
     init_containerApi := mkPaneviewApi |}.

(** The closure that [fromJSON] pushes on its queue. *)
Definition runThunk (t : InitThunk) : M W unit :=
  panelInit (thunk_panel t) (thunkParameters t).

(** The callback of [views.map] in [fromJSON]: it builds the panel of one
    serialized view and pushes its [init] on the queue.  The queue is
    returned next to the view descriptor. *)
Definition buildView (view : SerializedPaneviewPanel)
    : M W (ViewDescriptor * InitThunk) :=
  let data := view_data view in
  opts <- gets options ;;
  body <- liftResult (createBody opts (data_id data) (data_component data)) ;;
  header <- liftResult
              (createHeader_from opts (data_id data)
                 (data_headerComponent data)) ;;
  panel <- allocPanel (newPaneFramework (data_id data) (data_component data)
                         (data_headerComponent data) header body VERTICAL) ;;
  ret ({| descriptor_view_size := view_size view; descriptor_view := panel |},
       {| thunk_panel := panel; thunk_view := view |}).

(** [setTimeout(callback, 0)]: the callback joins the host's task queue. *)
Definition setTimeout (queue : list InitThunk) : M W unit :=
  log (CallSetTimeout 0) ;;;
  modify (fun w => set_timers (timers w ++ [queue]) w).

Definition fromJSON (data : SerializedPaneview)
    (deferComponentLayout : option bool) : M W unit :=
  let views := doc_views data in
  let size := doc_size data in
  callEngine CallDispose engineDispose ;;;
  built <- mapM buildView views ;;
  let queue := built.*2 in
  let popts :=
    {| paneview_orientation := VERTICAL;
       paneview_descriptor :=
         Some {| descriptor_size := size; descriptor_views := built.*1 |} |} in
  callEngine (CallNewPaneview popts) (fun _ => newPaneview popts) ;;;
  cw <- gets width ;;
  ch <- gets height ;;
  layout cw ch ;;;
  if truthy_bool deferComponentLayout
  then setTimeout queue
  else forEach runThunk queue.

(** One later turn of the host's task queue: the oldest timer fires. *)
Definition runNextTimer : M W unit :=
  fun w =>
    match timers w with
    | [] => (w, Ok tt)
    | queue :: rest => forEach runThunk queue (set_timers rest w)
    end.

(** A click on the header of a panel. *)
Definition clickHeader (r : PanelRef) : M W unit :=
  fun w =>
    match panel_header (deref w r) with
    | DefaultHeaderPart h => header_click h w
    | CustomHeaderPart _ => (w, Ok tt)
    end.

End Orchestrator.

(** ** Observations on runs *)

Definition isOk {A} (r : Result A) : bool :=
  match r with
  | Ok _ => true
  | Throw _ => false
  end.

(** The panels initialised along a trace, in the order of the calls. *)
Definition inits (tr : list Event) : list PanelRef :=
  omap (fun ev => match ev with
                  | CallInit p _ => Some p
                  | _ => None
                  end) tr.

(** Whether the parts of a serialized view resolve in the factory. *)
Definition resolvesView (opts : PaneviewComponentOptions)
    (view : SerializedPaneviewPanel) : bool :=
  isOk (createBody opts (data_id (view_data view))
          (data_component (view_data view)))
  && isOk (createHeader_from opts (data_id (view_data view))
             (data_headerComponent (view_data view))).

(** Whether the parts of an [addPanel] descriptor resolve in the factory. *)
Definition resolvesAdd (opts : PaneviewComponentOptions)
    (o : AddPaneviewCompponentOptions) : bool :=
  isOk (createBody opts (add_id o) (add_component o))
  && isOk (createHeader_add opts (add_id o) (add_headerComponent o)).

(** What [views.map] returns in [fromJSON] when the first new panel gets the
    reference [base]. *)
Definition builtViews (base : nat) (views : list SerializedPaneviewPanel)
    : list (ViewDescriptor * InitThunk) :=
  imap (fun i view =>
          ({| descriptor_view_size := view_size view;
              descriptor_view := (base + i)%nat |},
           {| thunk_panel := (base + i)%nat; thunk_view := view |}))
       views.

(** The options of the engine that [fromJSON] constructs from a document. *)
Definition newGeneration (base : nat) (data : SerializedPaneview)
    : PaneviewOptions :=
  {| paneview_orientation := VERTICAL;
     paneview_descriptor :=
       Some {| descriptor_size := doc_size data;
               descriptor_views := (builtViews base (doc_views data)).*1 |} |}.

Section Generation.
Context {E : Type} `{LayoutEngine E}.

Local Abbreviation W := (World E).

(** The world in which [fromJSON] reaches its last statement. *)
Definition swapped (data : SerializedPaneview)
    (panels : list PaneFramework) (w : W) : W :=
  let popts := newGeneration (length (heap w)) data in
  let e := newPaneview popts in
  {| paneview := engineLayout (engineSize e) (orthogonalSize e) e;
     options := options w; parentElement := parentElement w;
     heap := heap w ++ panels; timers := timers w;
     trace := trace w ++ [CallDispose; CallNewPaneview popts;
                          CallLayout (engineSize e) (orthogonalSize e)] |}.

(** The world in which [fromJSON] throws. *)
Definition torn (panels : list PaneFramework) (w : W) : W :=
  {| paneview := engineDispose (paneview w);
     options := options w; parentElement := parentElement w;
     heap := heap w ++ panels; timers := timers w;
     trace := trace w ++ [CallDispose] |}.

End Generation.

(** ** Operations as a step relation *)

Inductive Op : Type :=
| OpAddPanel (o : AddPaneviewCompponentOptions)
| OpRemovePanel (panel : PanelRef)
| OpMovePanel (from to : number)
| OpLayout (width height : number)
| OpResizeToFit
| OpFromJSON (data : SerializedPaneview) (deferComponentLayout : option bool)
| OpRunNextTimer
| OpClickHeader (panel : PanelRef)
| OpReparent (parent : option HTMLElement).

Section Steps.
Context {E : Type} `{LayoutEngine E}.

(** The world after an operation, whether it returned or threw. *)
Definition perform (op : Op) (w : World E) : World E :=
  match op with
  | OpAddPanel o => (addPanel o w).1
  | OpRemovePanel panel => (removePanel panel w).1
  | OpMovePanel from to => (movePanel from to w).1
  | OpLayout width height => (layout width height w).1
  | OpResizeToFit => (resizeToFit w).1
  | OpFromJSON data defer => (fromJSON data defer w).1
  | OpRunNextTimer => (runNextTimer w).1
  | OpClickHeader panel => (clickHeader panel w).1
  | OpReparent parent => set_parentElement parent w
  end.

(** The worlds an orchestrator can be in: freshly constructed, or one
    operation after such a world. *)
Inductive reachable : World E -> Prop :=
| reachable_new parent opts :
    reachable (newPaneviewComponent parent opts)
| reachable_step op w :
    reachable w -> reachable (perform op w).

Definition performAll (ops : list Op) (w : World E) : World E :=
  foldl (fun w op => perform op w) w ops.

End Steps.

(** An engine keeps the orientation it was constructed with.

    Modelled from the spec: the orientation of the container is fixed to one
    axis; [Paneview], which is not among the embedded sources, is given it at
    construction and the orchestrator never sets it afterwards. *)
Class OrientationFixed (E : Type) `{LayoutEngine E} : Prop := {
  orientation_newPaneview o :
    orientation (newPaneview o) = paneview_orientation o;
  orientation_addPane p s i e :
    orientation (addPane p s i e) = orientation e;
  orientation_removePane i e :
    orientation (removePane i e) = orientation e;
  orientation_moveView from to e :
    orientation (moveView from to e) = orientation e;
  orientation_engineLayout s o e :
    orientation (engineLayout s o e) = orientation e;
  orientation_engineDispose e :
    orientation (engineDispose e) = orientation e
}.

(** ** A reference Layout Engine *)

(** [Array.prototype.splice(start, ...)]: a negative start counts from the
    end of the array, and the start is clamped to the array. *)
Definition spliceStart {A} (l : list A) (start : Z) : nat :=
  let len := Z.of_nat (length l) in
  if start <? 0 then Z.to_nat (Z.max (len + start) 0)
  else Z.to_nat (Z.min start len).

(** [l.splice(start, 1)] *)
Definition spliceRemove {A} (start : Z) (l : list A) : list A :=
  let i := spliceStart l start in take i l ++ drop (S i) l.

(** [l.splice(start, 0, x)] *)
Definition spliceInsert {A} (start : Z) (x : A) (l : list A) : list A :=
  let i := spliceStart l start in take i l ++ x :: drop i l.

(** Sizes that split [total] evenly among [n] panes, the remainder of the
    division going to the first pane. *)
Definition distribute (total : number) (n : nat) : list number :=
  match n with
  | O => []
  | S m =>
      let share := total / Z.of_nat n in
      (share + total mod Z.of_nat n) :: replicate m share
  end.

Record ArrayEngine : Type := {
  array_views : list (PanelRef * number);
  array_size : number;
  array_orthogonalSize : number;
  array_orientation : Orientation;
  array_disposed : bool
}.

Definition array_with_views (v : list (PanelRef * number)) (e : ArrayEngine)
    : ArrayEngine :=
  {| array_views := v; array_size := array_size e;
     array_orthogonalSize := array_orthogonalSize e;
     array_orientation := array_orientation e;
     array_disposed := array_disposed e |}.

Definition array_new (o : PaneviewOptions) : ArrayEngine :=
  {| array_views :=
       from_option
         (fun d => (fun v => (descriptor_view v, descriptor_view_size v))
                     <$> descriptor_views d)
         [] (paneview_descriptor o);
     array_size := from_option descriptor_size 0 (paneview_descriptor o);
     array_orthogonalSize := 0;
     array_orientation := paneview_orientation o;
     array_disposed := false |}.

Definition array_addPane (p : PanelRef) (s : SizeArg) (i : option number)
    (e : ArrayEngine) : ArrayEngine :=
  let index := default (Z.of_nat (length (array_views e))) i in
  match s with
  | Pixels n => array_with_views (spliceInsert index (p, n) (array_views e)) e
  | Mode Distribute =>
      let panes := spliceInsert index p (array_views e).*1 in
      array_with_views
        (zip panes (distribute (array_size e) (length panes))) e
  end.

Definition array_removePane (i : number) (e : ArrayEngine) : ArrayEngine :=
  array_with_views (spliceRemove i (array_views e)) e.

Definition array_moveView (from to : number) (e : ArrayEngine) : ArrayEngine :=
  match array_views e !! spliceStart (array_views e) from with
  | Some v =>
      array_with_views
        (spliceInsert to v (spliceRemove from (array_views e))) e
  | None => e
  end.

Definition array_layout (s o : number) (e : ArrayEngine) : ArrayEngine :=
  {| array_views := array_views e; array_size := s;
     array_orthogonalSize := o; array_orientation := array_orientation e;
     array_disposed := array_disposed e |}.

Definition array_dispose (e : ArrayEngine) : ArrayEngine :=
  {| array_views := array_views e; array_size := array_size e;
     array_orthogonalSize := array_orthogonalSize e;
     array_orientation := array_orientation e; array_disposed := true |}.

(** Modelled from the spec: class [Paneview] is not among the embedded
    sources.  This instance of its contract keeps the panes, in visual order
    and each with its pixel size, in an array that is updated with
    [Array.prototype.splice]; the distribute-evenly sizing splits the
    engine's size among all panes; [dispose] marks the engine disposed.  It
    serves to run the orchestrator on concrete inputs. *)
#[global] Instance ArrayEngine_LayoutEngine : LayoutEngine ArrayEngine := {
  newPaneview := array_new;
  addPane := array_addPane;
  removePane := array_removePane;
  moveView := array_moveView;
  getPanes e := (array_views e).*1;
  getViewSize i e :=
    from_option snd 0 (array_views e !! Z.to_nat i);
  engineLayout := array_layout;
  engineSize := array_size;
  orthogonalSize := array_orthogonalSize;
  engineMinimumSize _ := 0;
  engineMaximumSize e := array_size e;
  orientation := array_orientation;
  engineDispose := array_dispose
}.


(** ** Panels as [fromJSON] builds them *)

(** The panel object that the callback of [views.map] allocates for a view
    whose parts resolve. *)
Definition builtFrom (opts : PaneviewComponentOptions) (p : PaneFramework)
    (view : SerializedPaneviewPanel) : Prop :=
  exists body header,
    createBody opts (data_id (view_data view))
      (data_component (view_data view)) = Ok body /\
    createHeader_from opts (data_id (view_data view))
      (data_headerComponent (view_data view)) = Ok header /\
    p = newPaneFramework (data_id (view_data view))
          (data_component (view_data view))
          (data_headerComponent (view_data view)) header body VERTICAL.

(** ** The React tab renderer *)

(** A shallow embedding of [react/dockview/reactHeaderPart.ts]. *)
Module ReactPanelHeaderPart.

(** [GroupPanelApi] and the container's api, opaque to the renderer. *)
Inductive GroupPanelApi : Type := mkGroupPanelApi (n : nat).
Inductive DockviewApi : Type := mkDockviewApi (n : nat).

(** The fields of [GroupPanelPartInitParameters] that [init] reads. *)
Record GroupPanelPartInitParameters : Type := {
  params : Params;
  api : GroupPanelApi;
  containerApi : DockviewApi
}.

(** A value of the props object handed to the React component. *)
Inductive PropValue : Type :=
| PropParam (v : JsValue)
| PropApi (a : GroupPanelApi)
| PropContainerApi (c : DockviewApi).

(** Class [ReactPart] of [react/react] is not among the embedded sources.
    An instance is represented by the component and the props that the
    renderer hands to its constructor (the element and the portal store are
    left out), and [part_disposed] counts the calls of its [dispose]. *)
Record ReactPart : Type := {
  part_component : string;
  part_props : gmap string PropValue;
  part_disposed : nat
}.

(** The fields of the renderer; [part] is a reference into the store of
    [ReactPart] objects. *)
Record t : Type := {
  id : string;
  component : string;
  part : option nat
}.

(** The renderer together with the [ReactPart] objects created so far. *)
Record State : Type := {
  self : t;
  parts : list ReactPart
}.

(** The constructor. *)
Definition new (id component : string) (parts : list ReactPart) : State :=
  {| self := {| id := id; component := component; part := None |};
     parts := parts |}.

Definition focus (s : State) : State := s.

(** The props of [init]:
    [{ ...parameters.params, api: parameters.api,
       containerApi: parameters.containerApi }]. *)
Definition props (parameters : GroupPanelPartInitParameters)
    : gmap string PropValue :=
  <["containerApi"%string := PropContainerApi (containerApi parameters)]>
    (<["api"%string := PropApi (api parameters)]>
       (PropParam <$> params parameters)).

Definition init (parameters : GroupPanelPartInitParameters) (s : State)
    : State :=
  {| self := {| id := id (self s); component := component (self s);
                part := Some (length (parts s)) |};
     parts := parts s ++ [{| part_component := component (self s);
                             part_props := props parameters;
                             part_disposed := 0 |}] |}.

Definition update (s : State) : State := s.

Definition toJSON (s : State) : string := id (self s).

Definition layout (width height : number) (s : State) : State := s.

Definition updateParentGroup (isPanelVisible : bool) (s : State) : State := s.

(** [ReactPart.dispose()] on the object behind a reference. *)
Definition disposePart (p : ReactPart) : ReactPart :=
  {| part_component := part_component p; part_props := part_props p;
     part_disposed := S (part_disposed p) |}.

(** [this.part?.dispose()] *)
Definition dispose (s : State) : State :=
  match part (self s) with
  | Some r => {| self := self s; parts := alter disposePart r (parts s) |}
  | None => s
  end.

(** The calls a group can make on its tab renderer. *)
Inductive Call : Type :=
| CallFocus
| CallInit (parameters : GroupPanelPartInitParameters)
| CallUpdate
| CallLayout (width height : number)
| CallUpdateParentGroup (isPanelVisible : bool)
| CallDispose.

Definition call (c : Call) (s : State) : State :=
  match c with
  | CallFocus => focus s
  | CallInit parameters => init parameters s
  | CallUpdate => update s
  | CallLayout width height => layout width height s
  | CallUpdateParentGroup v => updateParentGroup v s
  | CallDispose => dispose s
  end.

Definition calls (cs : list Call) (s : State) : State :=
  foldl (fun s c => call c s) s cs.

End ReactPanelHeaderPart.

(** ** Concrete inputs *)

Module Sample.

Definition registry : PaneviewComponentOptions :=
  {| components := Some {["text"%string]};
     frameworkComponents := None; headerComponents := None;
     headerframeworkComponents := None; frameworkWrapper := None |}.

Definition parent : HTMLElement :=
  {| boundingClientRect := {| rect_width := 300; rect_height := 600 |} |}.

Definition descriptor (id title : string) : AddPaneviewCompponentOptions :=
  {| add_id := id; add_component := "text"; add_headerComponent := None;
     add_params := None; add_minimumBodySize := None;
     add_maximumBodySize := None; add_isExpanded := None;
     add_title := title; add_index := None; add_size := None |}.

Definition sized (id title : string) (size : option number)
    (index : option number) : AddPaneviewCompponentOptions :=
  {| add_id := id; add_component := "text"; add_headerComponent := None;
     add_params := None; add_minimumBodySize := None;
     add_maximumBodySize := None; add_isExpanded := None;
     add_title := title; add_index := index; add_size := size |}.

Definition view (id component : string) (size : number)
    : SerializedPaneviewPanel :=
  {| view_snap := None; view_priority := None; view_minimumSize := None;
     view_maximumSize := None;
     view_data := {| data_id := id; data_component := component;
                     data_title := id; data_headerComponent := None;
                     data_params := None; data_state := None |};
     view_size := size; view_expanded := Some true |}.

(** A detached and an attached empty orchestrator over the reference
    engine. *)
Definition detached : World ArrayEngine := newPaneviewComponent None registry.
Definition empty : World ArrayEngine :=
  newPaneviewComponent (Some parent) registry.

(** Panels [p1] (reference 0) and [p2] (reference 1) after a layout. *)
Definition two : World ArrayEngine :=
  performAll [OpLayout 300 600; OpAddPanel (descriptor "p1" "One");
              OpAddPanel (descriptor "p2" "Two")] empty.

(** [p1] removed from [two]: reference 0 is now stale. *)
Definition one : World ArrayEngine := perform (OpRemovePanel 0%nat) two.

Definition abc : SerializedPaneview :=
  {| doc_size := 600;
     doc_views := [view "A" "text" 100; view "B" "text" 200;
                   view "C" "text" 300] |}.

(** A document whose second view names a component that is not registered. *)
Definition broken : SerializedPaneview :=
  {| doc_size := 600;
     doc_views := [view "A" "text" 100; view "B" "chart" 200] |}.

End Sample.

(** Further inputs. *)
Module More.


(** A descriptor whose header component is the empty string. *)
Definition emptyHeader : AddPaneviewCompponentOptions :=
  {| add_id := "p3"; add_component := "text";
     add_headerComponent := Some EmptyString;
     add_params := None; add_minimumBodySize := None;
     add_maximumBodySize := None; add_isExpanded := Some true;
     add_title := "Three"; add_index := None; add_size := None |}.

Definition de : SerializedPaneview :=
  {| doc_size := 400;
     doc_views := [Sample.view "D" "text" 150; Sample.view "E" "text" 250] |}.

(** Parameters of a tab whose params already hold a key [api]. *)
Definition tabParameters
    : ReactPanelHeaderPart.GroupPanelPartInitParameters :=
  {| ReactPanelHeaderPart.params :=
       {["api"%string := JsString "mine"; "title"%string := JsString "Tab"]};
     ReactPanelHeaderPart.api := ReactPanelHeaderPart.mkGroupPanelApi 7;
     ReactPanelHeaderPart.containerApi :=
       ReactPanelHeaderPart.mkDockviewApi 1 |}.

Definition tab : ReactPanelHeaderPart.State :=
  ReactPanelHeaderPart.new "tab1" "TabComponent" [].

End More.

(** * Properties *)

(** ** The frame of the basic steps *)

Ltac run :=
  cbv beta delta [bind ret throw gets modify liftResult log callEngine
                  allocPanel updatePanel panelInit setTimeout] iota;
  cbn [fst snd paneview options parentElement heap timers trace
       set_paneview set_heap set_timers set_parentElement logged].

Lemma inits_app (t1 t2 : list Event) : inits (t1 ++ t2) = inits t1 ++ inits t2.
Proof. apply omap_app. Qed.

Lemma findIndex_from_absent {A} (f : A -> bool) (l : list A) (i : Z) :
  Forall (fun x => f x = false) l -> findIndex_from f l i = -1.
Proof.
  intros Hall. revert i.
  induction Hall as [| x l Hx _ IH]; intros i; cbn; [reflexivity |].
  rewrite Hx. apply IH.
Qed.

Lemma findIndex_from_present {A} (f : A -> bool) (l : list A) (i : Z)
    (k : nat) (x : A) :
  l !! k = Some x -> f x = true ->
  (forall j y, (j < k)%nat -> l !! j = Some y -> f y = false) ->
  findIndex_from f l i = i + Z.of_nat k.
Proof.
  revert i k. induction l as [| a l IH]; intros i k Hk Hx Hbefore.
  - destruct k; discriminate.
  - destruct k as [| k]; cbn in *.
    + injection Hk as ->. rewrite Hx. lia.
    + rewrite (Hbefore 0%nat a) by (lia || reflexivity).
      rewrite (IH (i + 1) k Hk Hx).
      * lia.
      * intros j y Hj Hy. apply (Hbefore (S j) y); [lia | exact Hy].
Qed.

Section Frame.
Context {E : Type} `{LayoutEngine E}.

Local Abbreviation W := (World E).

Lemma builtViews_cons base view views :
  builtViews base (view :: views)
  = ({| descriptor_view_size := view_size view; descriptor_view := base |},
     {| thunk_panel := base; thunk_view := view |})
    :: builtViews (S base) views.
Proof.
  unfold builtViews. cbn. rewrite Nat.add_0_r. f_equal.
  apply imap_ext. intros i v _. cbn.
  replace (base + S i)%nat with (S (base + i)) by lia. reflexivity.
Qed.

Lemma builtViews_panels base views :
  thunk_panel <$> (builtViews base views).*2 = seq base (length views).
Proof.
  revert base. induction views as [| v views IH]; intros base.
  - reflexivity.
  - rewrite builtViews_cons. cbn. f_equal. apply IH.
Qed.

Lemma builtViews_thunk_views base views :
  thunk_view <$> (builtViews base views).*2 = views.
Proof.
  revert base. induction views as [| v views IH]; intros base.
  - reflexivity.
  - rewrite builtViews_cons. cbn. f_equal. apply IH.
Qed.

(** One run of the callback of [views.map]. *)
Lemma buildView_spec (view : SerializedPaneviewPanel) (w : W) :
  if resolvesView (options w) view then
    exists panel,
      panel_id panel = data_id (view_data view) /\
      panel_init panel = None /\
      buildView view w
      = (set_heap (heap w ++ [panel]) w,
         Ok ({| descriptor_view_size := view_size view;
                descriptor_view := length (heap w) |},
             {| thunk_panel := length (heap w); thunk_view := view |}))
  else exists e, buildView view w = (w, Throw e).
Proof.
  unfold resolvesView, buildView. run.
  destruct (createBody _ _ _) as [body | e]; cbn; [| eauto].
  destruct (createHeader_from _ _ _) as [header | e]; cbn; [| eauto].
  eexists. split; [| split]; [| | reflexivity]; reflexivity.
Qed.

(** The whole of [views.map]: it only allocates panels; it returns when
    every view resolves and throws at the first one that does not. *)
Lemma buildViews_spec (views : list SerializedPaneviewPanel) (w : W) :
  exists panels,
    (mapM buildView views w).1 = set_heap (heap w ++ panels) w /\
    Forall (fun p => panel_init p = None) panels /\
    if forallb (resolvesView (options w)) views then
      (mapM buildView views w).2 = Ok (builtViews (length (heap w)) views) /\
      Forall2 (fun p v => panel_id p = data_id (view_data v)) panels views
    else exists e, (mapM buildView views w).2 = Throw e.
Proof.
  revert w. induction views as [| view views IH]; intros w.
  - exists []. cbn. rewrite app_nil_r. destruct w; cbn. auto.
  - cbn [mapM forallb]. unfold bind, ret.
    pose proof (buildView_spec view w) as Hone.
    destruct (resolvesView (options w) view); cbn [andb].
    + destruct Hone as (panel & Hid & Hinit & ->).
      destruct (IH (set_heap (heap w ++ [panel]) w))
        as (panels & Hw & Hin & Hres).
      cbn [options set_heap heap] in Hw, Hres.
      exists (panel :: panels).
      destruct (mapM buildView views _) as [w' [built | e]] eqn:Hrun;
        cbn [fst snd] in *; subst w'.
      * rewrite <- app_assoc. split; [reflexivity |].
        split; [constructor; assumption |].
        destruct (forallb _ views); [| destruct Hres as [? ?]; discriminate].
        destruct Hres as [Hbuilt Hids]. injection Hbuilt as ->.
        split; [| constructor; assumption].
        rewrite builtViews_cons, length_app. cbn [length].
        replace (length (heap w) + 1)%nat with (S (length (heap w))) by lia.
        reflexivity.
      * rewrite <- app_assoc. split; [reflexivity |].
        split; [constructor; assumption |].
        destruct (forallb _ views); [destruct Hres; discriminate | eauto].
    + destruct Hone as [e ->]. exists []. cbn.
      rewrite app_nil_r. destruct w; cbn. eauto.
Qed.

(** Running the queued closures: only panels and the trace change. *)
Lemma runThunks_spec (queue : list InitThunk) (w : W) :
  exists h,
    forEach runThunk queue w
    = ({| paneview := paneview w; options := options w;
          parentElement := parentElement w; heap := h;
          timers := timers w;
          trace := trace w ++ ((fun t =>
                     CallInit (thunk_panel t) (thunkParameters t))
                   <$> queue) |},
       Ok tt) /\
    length h = length (heap w).
Proof.
  revert w. induction queue as [| t queue IH]; intros w.
  - exists (heap w). cbn. rewrite app_nil_r. destruct w; auto.
  - cbn [forEach]. unfold bind at 1. unfold runThunk at 1. run.
    match goal with |- context [forEach runThunk queue ?w1] =>
      destruct (IH w1) as (h & -> & Hlen) end.
    cbn in *. exists h. rewrite <- app_assoc. split; [reflexivity |].
    rewrite Hlen. apply length_alter.
Qed.

Lemma inits_runThunks (queue : list InitThunk) (w : W) :
  inits (trace (forEach runThunk queue w).1)
  = inits (trace w) ++ (thunk_panel <$> queue).
Proof.
  destruct (runThunks_spec queue w) as (h & -> & _). cbn.
  rewrite inits_app. f_equal.
  induction queue as [| t queue IH]; cbn; [reflexivity |].
  f_equal. exact IH.
Qed.

End Frame.

(** ** The claims about single operations *)

Section Claims.
Context {E : Type} `{LayoutEngine E}.

Local Abbreviation W := (World E).

Lemma findIndex_absent (panel : PanelRef) (views : list PanelRef) :
  panel ∉ views ->
  findIndex (fun v => bool_decide (v = panel)) views = -1.
Proof.
  intros Hnot. apply findIndex_from_absent.
  apply Forall_forall. intros v Hv.
  apply bool_decide_eq_false. intros ->. exact (Hnot Hv).
Qed.

(** [removePanel] has no branch for a panel that [findIndex] does not
    find.  For every panel reference that is not in the orchestrator's
    sequence, the call still reaches the Layout Engine, as
    [removePane(-1)]; the engine's state after the call is whatever
    [removePane] makes of the index [-1]. *)
Lemma removePanel_absent_calls_removePane (panel : PanelRef) (w : W) :
  panel ∉ getPanels w ->
  removePanel panel w
  = (set_paneview (removePane (-1) (paneview w))
       (logged [CallRemovePane (-1)] w), Ok tt).
Proof.
  intros Hnot. unfold removePanel. run.
  rewrite (findIndex_absent panel (getPanels w) Hnot). reflexivity.
Qed.

(** A panel that is in the sequence is removed at the index of its first
    occurrence. *)
Lemma removePanel_present_calls_removePane (panel : PanelRef) (k : nat)
    (w : W) :
  getPanels w !! k = Some panel ->
  (forall j, (j < k)%nat -> getPanels w !! j <> Some panel) ->
  removePanel panel w
  = (set_paneview (removePane (Z.of_nat k) (paneview w))
       (logged [CallRemovePane (Z.of_nat k)] w), Ok tt).
Proof.
  intros Hk Hfirst. unfold removePanel. run. unfold findIndex.
  rewrite (findIndex_from_present _ (getPanels w) 0 k panel Hk).
  - reflexivity.
  - apply bool_decide_eq_true. reflexivity.
  - intros j y Hj Hy. apply bool_decide_eq_false. intros ->.
    exact (Hfirst j Hj Hy).
Qed.

(** C5: when both parts of the descriptor resolve, [addPanel] returns and
    has inserted the new panel into the Layout Engine with [size] and
    [index], where [size] is the explicit pixel size when the descriptor
    has a numeric [size] and the distribute-evenly mode otherwise, and
    [index] is the descriptor's [index] when it is a number and absent
    otherwise. *)
Theorem addPanel_size_and_index (o : AddPaneviewCompponentOptions) (w : W) :
  resolvesAdd (options w) o = true ->
  exists (d : IDisposable) (size : SizeArg) (index : option number)
         (params : PanePanelInitParameter),
    let view := length (heap w) in
    (addPanel o w).2 = Ok d /\
    paneview (addPanel o w).1 = addPane view size index (paneview w) /\
    trace (addPanel o w).1
    = trace w ++ [CallAddPane view size index; CallInit view params] /\
    (forall n, add_size o = Some n -> size = Pixels n) /\
    (add_size o = None -> size = Mode Distribute) /\
    (forall i, add_index o = Some i -> index = Some i) /\
    (add_index o = None -> index = None).
Proof.
  unfold resolvesAdd, addPanel. run. intros Hres.
  destruct (createBody _ _ _) as [body | e]; [| discriminate].
  destruct (createHeader_add _ _ _) as [header | e]; [| discriminate].
  cbn. rewrite <- app_assoc. cbn.
  eexists _, _, _, _. split; [reflexivity |].
  split; [reflexivity |]. split; [reflexivity |].
  destruct (add_size o), (add_index o); repeat split; congruence.
Qed.

(** C7: with no parent element, [resizeToFit] returns at once: the world,
    which holds the orchestrator, the Layout Engine and the trace of calls
    (so no [layout] call and no read of a bounding box), is unchanged. *)
Theorem resizeToFit_detached_noop (w : W) :
  parentElement w = None -> resizeToFit w = (w, Ok tt).
Proof.
  intros Hparent. unfold resizeToFit. run. rewrite Hparent. reflexivity.
Qed.

(** C8: [toJSON] emits one view per pane of the Layout Engine, in the
    engine's order; the i-th view carries the size that the engine reports
    for index i and the data of the i-th panel; the document's size is the
    engine's size. *)
Theorem toJSON_views_follow_engine (w : W) :
  length (doc_views (toJSON w)) = length (getPanels w) /\
  (forall (i : nat) (view : PanelRef),
      getPanels w !! i = Some view ->
      exists v,
        doc_views (toJSON w) !! i = Some v /\
        view_size v = getViewSize (Z.of_nat i) (paneview w) /\
        view_data v = panelToJSON (deref w view) /\
        view_expanded v = Some (isExpanded (deref w view))) /\
  doc_size (toJSON w) = engineSize (paneview w).
Proof.
  unfold toJSON, getPanels. cbn [doc_views doc_size].
  split; [apply length_imap |]. split; [| reflexivity].
  intros i view Hview. rewrite list_lookup_imap, Hview. cbn.
  eexists. split; [reflexivity |]. cbn. auto.
Qed.

(** C9: a click on a default header whose [init] has not run (its reference
    to the control surface is still null) changes nothing and makes no call
    on any control surface; once [init] has stored the control surface, a
    click reads the expansion flag [b] and writes back its negation. *)
Theorem header_click_toggles_after_init (w : W) :
  header_click header_new w = (w, Ok tt) /\
  (forall (h : DefaultHeader), apiRef h = None ->
      header_click h w = (w, Ok tt)) /\
  (forall (h : DefaultHeader) params api,
      let b := from_option panel_expanded false (heap w !! api_panel api) in
      let w' := (header_click (header_init params api h) w).1 in
      (header_click (header_init params api h) w).2 = Ok tt /\
      trace w'
      = trace w ++ [CallIsExpanded (api_panel api);
                    CallSetExpanded (api_panel api) (negb b)] /\
      (forall p, heap w !! api_panel api = Some p ->
         (isExpanded <$> heap w' !! api_panel api)
         = Some (negb (isExpanded p))) /\
      paneview w' = paneview w) /\
  (forall (r : PanelRef),
      panel_header (deref w r) = DefaultHeaderPart header_new ->
      clickHeader r w = (w, Ok tt)).
Proof.
  split; [reflexivity |]. split; [| split].
  - intros h Hnull. unfold header_click. rewrite Hnull. reflexivity.
  - intros h params api. unfold header_click, api_isExpanded, api_setExpanded.
    cbn [header_init apiRef]. run. rewrite <- app_assoc. cbn.
    split; [reflexivity |]. split; [reflexivity |]. split; [| reflexivity].
    intros p Hp. rewrite list_lookup_alter, Hp.
    destruct (decide _); [reflexivity | congruence].
  - intros r Hheader. unfold clickHeader. rewrite Hheader. reflexivity.
Qed.

(** C10: the handle that [addPanel] returns has a [dispose] that does
    nothing: run in any world it returns and leaves that world, with its
    panels, engine and renderers, as it was. *)
Theorem addPanel_handle_dispose_noop (o : AddPaneviewCompponentOptions)
    (w w' : W) (d : IDisposable) :
  addPanel o w = (w', Ok d) ->
  forall u : W, dispose d u = (u, Ok tt).
Proof.
  unfold addPanel. run.
  destruct (createBody _ _ _) as [body | e]; [| discriminate].
  destruct (createHeader_add _ _ _) as [header | e]; [| discriminate].
  cbn. intros Hrun. injection Hrun as _ <-. reflexivity.
Qed.

(** Every call of [addPanel] whose parts resolve returns such a handle. *)
Lemma addPanel_returns (o : AddPaneviewCompponentOptions) (w : W) :
  resolvesAdd (options w) o = true ->
  exists w' d, addPanel o w = (w', Ok d).
Proof.
  unfold resolvesAdd, addPanel. run. intros Hres.
  destruct (createBody _ _ _) as [body | e]; [| discriminate].
  destruct (createHeader_add _ _ _) as [header | e]; [| discriminate].
  cbn. eauto.
Qed.

End Claims.

(** ** Generation swap: [fromJSON] *)

Section Generations.
Context {E : Type} `{LayoutEngine E}.

Local Abbreviation W := (World E).

(** [this.layout(this.width, this.height)] hands the engine its own size
    and orthogonal size, whatever the orientation. *)
Lemma layout_own_size (w : W) :
  layout (width w) (height w) w
  = (set_paneview
       (engineLayout (engineSize (paneview w)) (orthogonalSize (paneview w))
          (paneview w))
       (logged [CallLayout (engineSize (paneview w))
                  (orthogonalSize (paneview w))] w),
     Ok tt).
Proof.
  unfold layout, width, height. run.
  destruct (decide (orientation (paneview w) = HORIZONTAL)); reflexivity.
Qed.

Lemma callEngine_run (ev : Event) (f : E -> E) (w : W) :
  callEngine ev f w
  = (set_paneview (f (paneview w)) (logged [ev] w), Ok tt).
Proof. reflexivity. Qed.

Lemma relayout_own_size {A} (k : M W A) (w : W) :
  (cw <- gets width ;; ch <- gets height ;; layout cw ch ;;; k) w
  = k (set_paneview
         (engineLayout (engineSize (paneview w))
            (orthogonalSize (paneview w)) (paneview w))
         (logged [CallLayout (engineSize (paneview w))
                    (orthogonalSize (paneview w))] w)).
Proof.
  unfold bind at 1. unfold gets at 1. cbv beta iota.
  unfold bind at 1. unfold gets at 1. cbv beta iota.
  unfold bind at 1. rewrite layout_own_size. reflexivity.
Qed.

Lemma fromJSON_run (data : SerializedPaneview) (defer : option bool) (w : W) :
  exists panels,
    Forall (fun p => panel_init p = None) panels /\
    if forallb (resolvesView (options w)) (doc_views data) then
      Forall2 (fun p v => panel_id p = data_id (view_data v))
        panels (doc_views data) /\
      fromJSON data defer w
      = (if truthy_bool defer
         then setTimeout (builtViews (length (heap w)) (doc_views data)).*2
                (swapped data panels w)
         else forEach runThunk
                (builtViews (length (heap w)) (doc_views data)).*2
                (swapped data panels w))
    else exists e, fromJSON data defer w = (torn panels w, Throw e).
Proof.
  destruct (buildViews_spec (doc_views data)
              (set_paneview (engineDispose (paneview w))
                 (logged [CallDispose] w)))
    as (panels & Hw & Hin & Hres).
  cbn [options heap set_heap logged set_paneview] in Hw, Hres.
  exists panels. split; [exact Hin |].
  destruct (mapM buildView _ _) as [w2 r] eqn:Hmap.
  cbn [fst snd] in Hw, Hres. subst w2.
  destruct (forallb _ _).
  - destruct Hres as [-> Hids]. split; [exact Hids |].
    unfold fromJSON. cbv zeta. unfold bind at 1.
    rewrite callEngine_run. cbv beta iota. unfold bind at 1.
    rewrite Hmap. unfold bind at 1. rewrite callEngine_run. cbv beta iota.
    rewrite relayout_own_size.
    destruct (truthy_bool defer); f_equal;
      unfold swapped, newGeneration, set_paneview, set_heap, logged;
      cbn [paneview options parentElement heap timers trace];
      rewrite <- !app_assoc; reflexivity.
  - destruct Hres as [e ->]. exists e.
    unfold fromJSON. cbv zeta. unfold bind at 1.
    rewrite callEngine_run. cbv beta iota. unfold bind at 1.
    rewrite Hmap. reflexivity.
Qed.

Lemma inits_deferred (data : SerializedPaneview)
    (panels : list PaneFramework) (w : W) :
  inits (trace (swapped data panels w) ++ [CallSetTimeout 0])
  = inits (trace w).
Proof.
  unfold swapped. cbn [trace]. rewrite !inits_app. cbn.
  rewrite !app_nil_r. reflexivity.
Qed.

Lemma Forall2_lookup_ids (panels : list PaneFramework)
    (views : list SerializedPaneviewPanel) (i : nat)
    (v : SerializedPaneviewPanel) :
  Forall2 (fun p v => panel_id p = data_id (view_data v)) panels views ->
  views !! i = Some v ->
  exists p, panels !! i = Some p /\ panel_id p = data_id (view_data v).
Proof.
  intros Hall Hv.
  destruct (Forall2_lookup_r _ _ _ _ _ Hall Hv) as (p & Hp & Hid). eauto.
Qed.

(** The engine that the orchestrator holds after [fromJSON]. *)
Lemma fromJSON_engine (data : SerializedPaneview) (defer : option bool)
    (w : W) :
  paneview (fromJSON data defer w).1
  = if forallb (resolvesView (options w)) (doc_views data)
    then let e := newPaneview (newGeneration (length (heap w)) data) in
         engineLayout (engineSize e) (orthogonalSize e) e
    else engineDispose (paneview w).
Proof.
  destruct (fromJSON_run data defer w) as (panels & _ & Hrun).
  destruct (forallb _ _).
  - destruct Hrun as [_ ->]. destruct (truthy_bool defer).
    + reflexivity.
    + destruct (runThunks_spec
                  (builtViews (length (heap w)) (doc_views data)).*2
                  (swapped data panels w)) as (h & -> & _).
      reflexivity.
  - destruct Hrun as [e ->]. reflexivity.
Qed.

(** C2 (as amended): [fromJSON] discards the old generation before the new
    generation is constructed: it disposes the previous Layout Engine first.
    When construction of a panel of the new generation fails (a part of some
    view does not resolve in the factory), the error propagates and the
    orchestrator is left holding the previous engine, disposed, without a
    valid new state: no new engine was constructed, nothing was scheduled
    and no [init] ran.  When every view resolves, the call returns, and the
    new engine was constructed after the dispose. *)
Theorem fromJSON_disposes_before_construction (data : SerializedPaneview)
    (defer : option bool) (w : W) :
  (forallb (resolvesView (options w)) (doc_views data) = false ->
     exists e,
       (fromJSON data defer w).2 = Throw e /\
       paneview (fromJSON data defer w).1 = engineDispose (paneview w) /\
       timers (fromJSON data defer w).1 = timers w /\
       trace (fromJSON data defer w).1 = trace w ++ [CallDispose]) /\
  (forallb (resolvesView (options w)) (doc_views data) = true ->
     (fromJSON data defer w).2 = Ok tt /\
     exists rest,
       trace (fromJSON data defer w).1
       = trace w
         ++ CallDispose
            :: CallNewPaneview (newGeneration (length (heap w)) data)
            :: rest).
Proof.
  destruct (fromJSON_run data defer w) as (panels & _ & Hrun).
  split; intros Hres; rewrite Hres in Hrun.
  - destruct Hrun as [e ->]. exists e. cbn. auto.
  - destruct Hrun as [_ ->].
    destruct (truthy_bool defer).
    + unfold setTimeout. run. unfold swapped. cbn.
      split; [reflexivity |].
      eexists. rewrite <- app_assoc. reflexivity.
    + destruct (runThunks_spec
                  (builtViews (length (heap w)) (doc_views data)).*2
                  (swapped data panels w)) as (h & -> & _).
      unfold swapped. cbn.
      split; [reflexivity |].
      eexists. rewrite <- app_assoc. reflexivity.
Qed.

(** C4: for a document whose views all resolve, [fromJSON] with
    [deferComponentLayout = true] returns with no [init] call made and with
    one callback added to the host's task queue; the callback holds one
    closure per view of the document, in the document's order, each on the
    panel built from that view; when the callback runs, the [init] calls
    are those of the new panels, once each, in the order of the views. *)
Theorem fromJSON_deferred_init_order (data : SerializedPaneview) (w : W) :
  forallb (resolvesView (options w)) (doc_views data) = true ->
  let w' := (fromJSON data (Some true) w).1 in
  let panels := seq (length (heap w)) (length (doc_views data)) in
  (fromJSON data (Some true) w).2 = Ok tt /\
  inits (trace w') = inits (trace w) /\
  NoDup panels /\
  (forall (i : nat) v, doc_views data !! i = Some v ->
     exists p, heap w' !! (length (heap w) + i)%nat = Some p /\
               panel_id p = data_id (view_data v) /\
               panel_init p = None) /\
  exists queue,
    timers w' = timers w ++ [queue] /\
    thunk_panel <$> queue = panels /\
    thunk_view <$> queue = doc_views data /\
    inits (trace (forEach runThunk queue w').1)
    = inits (trace w) ++ panels /\
    (timers w = [] ->
     inits (trace (runNextTimer w').1) = inits (trace w) ++ panels /\
     timers (runNextTimer w').1 = []).
Proof.
  intros Hres.
  destruct (fromJSON_run data (Some true) w) as (panels & Hin & Hrun).
  rewrite Hres in Hrun. destruct Hrun as [Hids ->]. cbv zeta.
  change (truthy_bool (Some true)) with true. cbv beta iota.
  unfold setTimeout. run.
  split; [reflexivity |].
  split; [apply inits_deferred |].
  split; [apply NoDup_seq |].
  split.
  - intros i v Hv.
    destruct (Forall2_lookup_ids panels _ i v Hids Hv) as (p & Hp & Hid).
    exists p. unfold swapped. cbn [heap].
    rewrite lookup_app_r by lia.
    replace (length (heap w) + i - length (heap w))%nat with i by lia.
    split; [exact Hp |]. split; [exact Hid |].
    eapply (proj1 (Forall_lookup _ _) Hin); exact Hp.
  - eexists. split; [reflexivity |].
    split; [apply builtViews_panels |].
    split; [apply builtViews_thunk_views |].
    split.
    + rewrite inits_runThunks. cbn [trace set_timers logged].
      rewrite inits_deferred, builtViews_panels. reflexivity.
    + intros Hempty. unfold runNextTimer.
      cbn [timers set_timers logged swapped]. rewrite Hempty. cbn [app].
      rewrite inits_runThunks.
      match goal with |- context [forEach runThunk ?q ?w0] =>
        destruct (runThunks_spec q w0) as (h & Heq & _) end.
      rewrite Heq.
      cbn [trace timers set_timers logged fst].
      rewrite inits_deferred, builtViews_panels. auto.
Qed.

End Generations.

(** ** The orientation of the container *)

Section Orientation.
Context {E : Type} `{OrientationFixed E}.

Local Abbreviation W := (World E).

Lemma perform_orientation (op : Op) (w : W) :
  orientation (paneview w) = VERTICAL ->
  orientation (paneview (perform op w)) = VERTICAL.
Proof.
  intros Hv. destruct op as [o | panel | from to | width height | | data defer
                            | | panel | parent]; cbn [perform].
  - unfold addPanel. run.
    destruct (createBody _ _ _) as [body | e]; [| exact Hv].
    destruct (createHeader_add _ _ _) as [header | e]; [| exact Hv].
    cbn. rewrite orientation_addPane. exact Hv.
  - unfold removePanel. run. rewrite orientation_removePane. exact Hv.
  - unfold movePanel. run. rewrite orientation_moveView. exact Hv.
  - unfold layout. run.
    destruct (decide _); cbn; rewrite orientation_engineLayout; exact Hv.
  - unfold resizeToFit, layout. run.
    destruct (parentElement w); [| exact Hv]. cbn.
    destruct (decide _); cbn; rewrite orientation_engineLayout; exact Hv.
  - rewrite fromJSON_engine.
    destruct (forallb (resolvesView (options w)) (doc_views data)).
    + cbv zeta. rewrite orientation_engineLayout, orientation_newPaneview.
      reflexivity.
    + rewrite orientation_engineDispose. exact Hv.
  - unfold runNextTimer. destruct (timers w) as [| queue rest]; [exact Hv |].
    destruct (runThunks_spec queue (set_timers rest w)) as (h & -> & _).
    exact Hv.
  - unfold clickHeader. destruct (panel_header (deref w panel)); [| exact Hv].
    unfold header_click. destruct (apiRef h); exact Hv.
  - exact Hv.
Qed.

(** The engine of an orchestrator is vertical from its construction on. *)
Lemma reachable_vertical (w : W) :
  reachable w -> orientation (paneview w) = VERTICAL.
Proof.
  induction 1 as [parent opts | op w _ IH].
  - cbn. apply orientation_newPaneview.
  - apply perform_orientation, IH.
Qed.

(** C6: [layout(width, height)] hands the Layout Engine the pair
    [(width, height)] when the engine is horizontal and [(height, width)]
    when it is vertical; an orchestrator's engine is vertical in every
    world it can reach, so there [layout] always hands on
    [(height, width)]. *)
Theorem layout_forwards_by_orientation (width height : number) (w : W) :
  (orientation (paneview w) = HORIZONTAL ->
     layout width height w
     = (set_paneview (engineLayout width height (paneview w))
          (logged [CallLayout width height] w), Ok tt)) /\
  (orientation (paneview w) = VERTICAL ->
     layout width height w
     = (set_paneview (engineLayout height width (paneview w))
          (logged [CallLayout height width] w), Ok tt)) /\
  (reachable w ->
     layout width height w
     = (set_paneview (engineLayout height width (paneview w))
          (logged [CallLayout height width] w), Ok tt)).
Proof.
  assert (Hvert : orientation (paneview w) = VERTICAL ->
     layout width height w
     = (set_paneview (engineLayout height width (paneview w))
          (logged [CallLayout height width] w), Ok tt)).
  { intros Hv. unfold layout. run. rewrite Hv. reflexivity. }
  split; [| split].
  - intros Hh. unfold layout. run. rewrite Hh. reflexivity.
  - exact Hvert.
  - intros Hreach. apply Hvert, reachable_vertical, Hreach.
Qed.

End Orientation.

(** ** The claims at concrete inputs *)

(** The reference engine keeps the orientation it was constructed with. *)
#[global] Instance ArrayEngine_OrientationFixed : OrientationFixed ArrayEngine.
Proof.
  split; try reflexivity.
  - intros p [n | []] i e; reflexivity.
  - intros from to e; cbn. unfold array_moveView.
    destruct (array_views e !! _); reflexivity.
Qed.

Lemma two_reachable : reachable Sample.two.
Proof. unfold Sample.two, performAll. cbn [foldl]. repeat constructor. Qed.

(** C1 (the code at a failing input): the orchestrator holds [p1] and [p2];
    [removePanel(p1)] is called twice.  At the second call the reference is
    stale: it is not in the sequence, which is [[p2]].  The call is not a
    no-op: it reaches the Layout Engine as [removePane(-1)], and on an engine
    that removes from its pane array with [splice] the remaining panel [p2]
    is gone afterwards. *)
Theorem removePanel_twice_is_not_a_noop :
  getPanels Sample.two = [0%nat; 1%nat] /\
  getPanels Sample.one = [1%nat] /\
  (0%nat ∉ getPanels Sample.one) /\
  (removePanel 0%nat Sample.one).2 = Ok tt /\
  trace (removePanel 0%nat Sample.one).1
  = trace Sample.one ++ [CallRemovePane (-1)] /\
  paneview (removePanel 0%nat Sample.one).1
  = removePane (-1) (paneview Sample.one) /\
  getPanels (removePanel 0%nat Sample.one).1 = [].
Proof.
  assert (Hnot : 0%nat ∉ getPanels Sample.one).
  { apply (bool_decide_unpack _). vm_compute. exact I. }
  rewrite (removePanel_absent_calls_removePane 0%nat Sample.one Hnot).
  repeat split; try exact Hnot; vm_compute; reflexivity.
Qed.

(** C2 (counterexample): the second view of the document names a component
    that is not registered.  [fromJSON] throws the factory's error, and the
    orchestrator does not hold its previous state: its engine is the
    previous one, disposed. *)
Lemma fromJSON_failure_leaves_disposed_engine :
  array_disposed (paneview Sample.two) = false /\
  (fromJSON Sample.broken None Sample.two).2
  = Throw (ResolutionError "B" "chart") /\
  paneview (fromJSON Sample.broken None Sample.two).1
  = engineDispose (paneview Sample.two) /\
  array_disposed (paneview (fromJSON Sample.broken None Sample.two).1) = true /\
  paneview (fromJSON Sample.broken None Sample.two).1 <> paneview Sample.two.
Proof.
  repeat split; try (vm_compute; reflexivity).
  vm_compute. discriminate.
Qed.

Lemma fromJSON_disposes_before_construction_witness :
  forallb (resolvesView (options Sample.two)) (doc_views Sample.broken) = false /\
  forallb (resolvesView (options Sample.two)) (doc_views Sample.abc) = true /\
  (exists e,
     (fromJSON Sample.broken None Sample.two).2 = Throw e /\
     paneview (fromJSON Sample.broken None Sample.two).1
     = engineDispose (paneview Sample.two)) /\
  (fromJSON Sample.abc None Sample.two).2 = Ok tt.
Proof.
  assert (Hbroken : forallb (resolvesView (options Sample.two))
                      (doc_views Sample.broken) = false)
    by (vm_compute; reflexivity).
  assert (Habc : forallb (resolvesView (options Sample.two))
                   (doc_views Sample.abc) = true)
    by (vm_compute; reflexivity).
  split; [exact Hbroken |]. split; [exact Habc |]. split.
  - destruct (proj1 (fromJSON_disposes_before_construction
                       Sample.broken None Sample.two) Hbroken)
      as (e & Hthrow & Hengine & _).
    exists e. split; [exact Hthrow | exact Hengine].
  - exact (proj1 (proj2 (fromJSON_disposes_before_construction
                           Sample.abc None Sample.two) Habc)).
Defined.

Lemma fromJSON_deferred_init_order_witness :
  forallb (resolvesView (options Sample.two)) (doc_views Sample.abc) = true /\
  (fromJSON Sample.abc (Some true) Sample.two).2 = Ok tt /\
  inits (trace (fromJSON Sample.abc (Some true) Sample.two).1)
  = inits (trace Sample.two) /\
  inits (trace (runNextTimer
                  (fromJSON Sample.abc (Some true) Sample.two).1).1)
  = inits (trace Sample.two) ++ [2%nat; 3%nat; 4%nat].
Proof.
  assert (Habc : forallb (resolvesView (options Sample.two))
                   (doc_views Sample.abc) = true)
    by (vm_compute; reflexivity).
  split; [exact Habc |].
  destruct (fromJSON_deferred_init_order Sample.abc Sample.two Habc)
    as (Hok & Hnone & _ & _ & queue & _ & _ & _ & _ & Hturn).
  split; [exact Hok |]. split; [exact Hnone |].
  exact (proj1 (Hturn eq_refl)).
Defined.

Lemma addPanel_size_and_index_witness :
  resolvesAdd (options Sample.two)
    (Sample.sized "p3" "Three" (Some 120) (Some 0)) = true /\
  exists d,
    (addPanel (Sample.sized "p3" "Three" (Some 120) (Some 0)) Sample.two).2
    = Ok d /\
    paneview
      (addPanel (Sample.sized "p3" "Three" (Some 120) (Some 0)) Sample.two).1
    = addPane 2%nat (Pixels 120) (Some 0) (paneview Sample.two).
Proof.
  assert (Hres : resolvesAdd (options Sample.two)
                   (Sample.sized "p3" "Three" (Some 120) (Some 0)) = true)
    by (vm_compute; reflexivity).
  split; [exact Hres |].
  destruct (addPanel_size_and_index
              (Sample.sized "p3" "Three" (Some 120) (Some 0)) Sample.two Hres)
    as (d & size & index & params & Hd & Hengine & _ & Hsize & _ & Hindex & _).
  exists d. split; [exact Hd |].
  rewrite Hengine, (Hsize 120 eq_refl), (Hindex 0 eq_refl). reflexivity.
Defined.

Lemma layout_forwards_by_orientation_witness :
  reachable Sample.two /\
  layout 300 600 Sample.two
  = (set_paneview (engineLayout 600 300 (paneview Sample.two))
       (logged [CallLayout 600 300] Sample.two), Ok tt).
Proof.
  split; [exact two_reachable |].
  exact (proj2 (proj2 (layout_forwards_by_orientation 300 600 Sample.two))
           two_reachable).
Defined.

Lemma resizeToFit_detached_noop_witness :
  parentElement Sample.detached = None /\
  resizeToFit Sample.detached = (Sample.detached, Ok tt).
Proof.
  split; [reflexivity |].
  exact (resizeToFit_detached_noop Sample.detached eq_refl).
Defined.

Lemma toJSON_views_follow_engine_witness :
  getPanels Sample.two !! 1%nat = Some 1%nat /\
  exists v,
    doc_views (toJSON Sample.two) !! 1%nat = Some v /\
    view_size v = getViewSize 1 (paneview Sample.two) /\
    data_id (view_data v) = "p2"%string.
Proof.
  assert (Hpane : getPanels Sample.two !! 1%nat = Some 1%nat)
    by (vm_compute; reflexivity).
  split; [exact Hpane |].
  destruct (proj1 (proj2 (toJSON_views_follow_engine Sample.two))
              1%nat 1%nat Hpane) as (v & Hv & Hsize & Hdata & _).
  exists v. split; [exact Hv |]. split; [exact Hsize |].
  rewrite Hdata. vm_compute. reflexivity.
Defined.

Lemma header_click_toggles_after_init_witness :
  apiRef header_new = None /\
  header_click header_new Sample.two = (Sample.two, Ok tt).
Proof.
  split; [reflexivity |].
  exact (proj1 (proj2 (header_click_toggles_after_init Sample.two))
           header_new eq_refl).
Defined.

Lemma addPanel_handle_dispose_noop_witness :
  exists w' d,
    addPanel (Sample.descriptor "p1" "One") Sample.empty = (w', Ok d) /\
    dispose d w' = (w', Ok tt).
Proof.
  destruct (addPanel (Sample.descriptor "p1" "One") Sample.empty)
    as [w' [d | e]] eqn:Hrun.
  - exists w', d. split; [reflexivity |].
    exact (addPanel_handle_dispose_noop (Sample.descriptor "p1" "One")
             Sample.empty w' d Hrun w').
  - exfalso. vm_compute in Hrun. discriminate Hrun.
Defined.

(** The scenario of the specification on the reference engine: two panels
    are added, swapped with [movePanel(0, 1)], and [p2] is removed through
    [getPanel]. *)
Example scenario_add_move_remove :
  let ids (w : World ArrayEngine) :=
    (fun v => data_id (view_data v)) <$> doc_views (toJSON w) in
  let moved := perform (OpMovePanel 0 1) Sample.two in
  ids Sample.two = ["p1"; "p2"]%string /\
  ids moved = ["p2"; "p1"]%string /\
  getPanel "p2" moved = Some 1%nat /\
  ids (perform (OpRemovePanel 1%nat) moved) = ["p1"%string].
Proof. vm_compute. repeat split. Qed.

(** * Further properties of the orchestrator *)

Lemma find_first {A} (f : A -> bool) (l : list A) :
  match List.find f l with
  | Some x =>
      exists k, l !! k = Some x /\ f x = true /\
                forall j y, (j < k)%nat -> l !! j = Some y -> f y = false
  | None => forall y, y ∈ l -> f y = false
  end.
Proof.
  induction l as [| a l IH]; cbn.
  - intros y Hy. inversion Hy.
  - destruct (f a) eqn:Ha.
    + exists 0%nat. split; [reflexivity |]. split; [exact Ha |].
      intros j y Hj. lia.
    + destruct (List.find f l) as [x |].
      * destruct IH as (k & Hk & Hx & Hbefore).
        exists (S k). split; [exact Hk |]. split; [exact Hx |].
        intros [| j] y Hj Hy; cbn in Hy.
        -- injection Hy as <-. exact Ha.
        -- apply (Hbefore j y); [lia | exact Hy].
      * intros y Hy. apply elem_of_cons in Hy as [-> | Hy]; auto.
Qed.

Section Further.
Context {E : Type} `{LayoutEngine E}.

Local Abbreviation W := (World E).

Lemma createComponent_error (id kind : string) (plain : gset string)
    (framework : option (gset string)) (via : option FrameworkCreate) :
  match createComponent id kind plain framework via with
  | Ok r => renderer_id r = id /\ renderer_component r = kind
  | Throw e => e = ResolutionError id kind
  end.
Proof.
  unfold createComponent. repeat destruct (decide _); cbn; auto.
Qed.

Lemma createHeader_add_falsy (opts : PaneviewComponentOptions) (id : string)
    (headerComponent : option string) :
  truthy_string headerComponent = false ->
  createHeader_add opts id headerComponent = Ok (DefaultHeaderPart header_new).
Proof. unfold createHeader_add. intros ->. reflexivity. Qed.


Lemma createHeader_from_error (opts : PaneviewComponentOptions) (id : string)
    (headerComponent : option string) (e : Error) :
  createHeader_from opts id headerComponent = Throw e ->
  exists kind, headerComponent = Some kind /\ e = ResolutionError id kind.
Proof.
  unfold createHeader_from.
  destruct (truthy_string headerComponent) eqn:Htruthy; [| discriminate].
  destruct headerComponent as [kind |]; [| discriminate Htruthy].
  change (default EmptyString (Some kind)) with kind.
  pose proof (createComponent_error id kind
                (default ∅ (headerComponents opts))
                (Some (default ∅ (headerframeworkComponents opts)))
                (wrapper_header <$> frameworkWrapper opts)) as Herr.
  destruct (createComponent _ _ _ _ _); [discriminate |].
  intros [= <-]. eauto.
Qed.

Lemma createBody_error (opts : PaneviewComponentOptions) (id kind : string)
    (e : Error) :
  createBody opts id kind = Throw e -> e = ResolutionError id kind.
Proof.
  unfold createBody. intros Hthrow.
  pose proof (createComponent_error id kind (default ∅ (components opts))
                (Some (default ∅ (frameworkComponents opts)))
                (wrapper_body <$> frameworkWrapper opts)) as Herr.
  rewrite Hthrow in Herr. exact Herr.
Qed.


(** X2: a descriptor whose [headerComponent] is absent or the empty string
    gets the default header without the factory being asked for a header:
    [addPanel] returns as soon as the body resolves, whatever the header
    registries hold, and the panel keeps the descriptor's [headerComponent]
    as it was given. *)
Theorem addPanel_falsy_header_is_default (o : AddPaneviewCompponentOptions)
    (w : W) :
  truthy_string (add_headerComponent o) = false ->
  isOk (createBody (options w) (add_id o) (add_component o)) = true ->
  exists d p h,
    (addPanel o w).2 = Ok d /\
    heap (addPanel o w).1 = heap w ++ [p] /\
    panel_headerComponent p = add_headerComponent o /\
    panel_header p = DefaultHeaderPart h /\
    textContent h = add_title o.
Proof.
  intros Hfalsy Hbody. unfold addPanel. run.
  rewrite (createHeader_add_falsy _ _ _ Hfalsy).
  destruct (createBody _ _ _) as [body | e]; [| discriminate].
  cbn. rewrite !alter_app_r_alt by (rewrite ?length_app; cbn; lia).
  rewrite Nat.sub_diag. cbn.
  eexists _, _, _. repeat split; reflexivity.
Qed.

(** X3: when its parts resolve, [addPanel] allocates exactly one panel
    object, with the descriptor's id and component, and changes no other
    panel object; the new panel takes the orientation that the Layout Engine
    reports after the insertion; [init] is called once, on the new panel and
    after the insertion, with [params] defaulting to the empty object and the
    descriptor's bounds, expansion flag and title passed through; the
    options, the timers and the parent are untouched. *)
Theorem addPanel_allocates_one_panel (o : AddPaneviewCompponentOptions)
    (w : W) :
  resolvesAdd (options w) o = true ->
  let w' := (addPanel o w).1 in
  let view := length (heap w) in
  exists p,
    heap w' = heap w ++ [p] /\
    panel_id p = add_id o /\
    panel_component p = add_component o /\
    panel_orientation p = orientation (paneview w') /\
    inits (trace w') = inits (trace w) ++ [view] /\
    last (trace w')
    = Some (CallInit view
              {| init_params := default ∅ (add_params o);
                 init_minimumBodySize := add_minimumBodySize o;
                 init_maximumBodySize := add_maximumBodySize o;
                 init_isExpanded := add_isExpanded o;
                 init_title := add_title o;
                 init_containerApi := mkPaneviewApi |}) /\
    options w' = options w /\ timers w' = timers w /\
    parentElement w' = parentElement w.
Proof.
  unfold resolvesAdd, addPanel. run. intros Hres.
  destruct (createBody _ _ _) as [body | e]; [| discriminate].
  destruct (createHeader_add _ _ _) as [header | e]; [| discriminate].
  cbn. rewrite !alter_app_r_alt by (rewrite ?length_app; cbn; lia).
  rewrite Nat.sub_diag. cbn.
  eexists. split; [reflexivity |]. cbn.
  repeat split.
  - rewrite <- app_assoc, inits_app. cbn. reflexivity.
  - rewrite <- app_assoc. cbn. rewrite last_app. reflexivity.
Qed.

(** X4: for a panel that is in the sequence, [removePanel] calls the engine's
    [removePane] once, with the index of the panel's first occurrence. *)
Theorem removePanel_removes_first_occurrence (panel : PanelRef) (k : nat)
    (w : W) :
  getPanels w !! k = Some panel ->
  (forall j, (j < k)%nat -> getPanels w !! j <> Some panel) ->
  removePanel panel w
  = (set_paneview (removePane (Z.of_nat k) (paneview w))
       (logged [CallRemovePane (Z.of_nat k)] w), Ok tt).
Proof.
  intros Hk Hfirst. unfold removePanel. run. unfold findIndex.
  rewrite (findIndex_from_present _ (getPanels w) 0 k panel Hk).
  - reflexivity.
  - apply bool_decide_eq_true. reflexivity.
  - intros j y Hj Hy. apply bool_decide_eq_false. intros ->.
    exact (Hfirst j Hj Hy).
Qed.

(** X5: [getPanel] returns the first panel of the sequence whose id is the
    one asked for, and no panel (never an error) exactly when no panel of the
    sequence has that id. *)
Theorem getPanel_first_match (id : string) (w : W) :
  match getPanel id w with
  | Some r =>
      exists k, getPanels w !! k = Some r /\
                panel_id (deref w r) = id /\
                forall j r', (j < k)%nat -> getPanels w !! j = Some r' ->
                             panel_id (deref w r') <> id
  | None => forall r, r ∈ getPanels w -> panel_id (deref w r) <> id
  end.
Proof.
  unfold getPanel.
  pose proof (find_first
                (fun view => bool_decide (panel_id (deref w view) = id))
                (getPanels w)) as Hfind.
  destruct (List.find _ _) as [r |].
  - destruct Hfind as (k & Hk & Hid & Hbefore).
    exists k. split; [exact Hk |].
    split; [apply bool_decide_eq_true in Hid; exact Hid |].
    intros j r' Hj Hr'. specialize (Hbefore j r' Hj Hr').
    apply bool_decide_eq_false in Hbefore. exact Hbefore.
  - intros r Hr. specialize (Hfind r Hr).
    apply bool_decide_eq_false in Hfind. exact Hfind.
Qed.

(** X6: [removePanel(getPanel(id))]: when [getPanel] finds a panel,
    removing it calls [removePane] with the first index whose panel has that
    id, also when the same panel or the same id occurs again later. *)
Theorem removePanel_of_getPanel (id : string) (r : PanelRef) (w : W) :
  getPanel id w = Some r ->
  exists k,
    getPanels w !! k = Some r /\
    (forall j r', (j < k)%nat -> getPanels w !! j = Some r' ->
                  panel_id (deref w r') <> id) /\
    removePanel r w
    = (set_paneview (removePane (Z.of_nat k) (paneview w))
         (logged [CallRemovePane (Z.of_nat k)] w), Ok tt).
Proof.
  intros Hget. unfold getPanel in Hget.
  pose proof (find_first
                (fun view => bool_decide (panel_id (deref w view) = id))
                (getPanels w)) as Hfind.
  rewrite Hget in Hfind. destruct Hfind as (k & Hk & Hid & Hbefore).
  apply bool_decide_eq_true in Hid.
  assert (Hids : forall j r', (j < k)%nat -> getPanels w !! j = Some r' ->
                              panel_id (deref w r') <> id).
  { intros j r' Hj Hr'. specialize (Hbefore j r' Hj Hr').
    apply bool_decide_eq_false in Hbefore. exact Hbefore. }
  exists k. split; [exact Hk |]. split; [exact Hids |].
  unfold removePanel. run. unfold findIndex.
  rewrite (findIndex_from_present _ (getPanels w) 0 k r Hk).
  - reflexivity.
  - apply bool_decide_eq_true. reflexivity.
  - intros j y Hj Hy. apply bool_decide_eq_false. intros ->.
    exact (Hids j r Hj Hy Hid).
Qed.

(** X7: the getters [width] and [height] undo the axis swap of [layout]:
    whatever the orientation of the engine, [layout(this.width, this.height)]
    hands the engine its own size and its own orthogonal size. *)
Theorem layout_of_own_width_and_height (w : W) :
  layout (width w) (height w) w
  = (set_paneview
       (engineLayout (engineSize (paneview w)) (orthogonalSize (paneview w))
          (paneview w))
       (logged [CallLayout (engineSize (paneview w))
                  (orthogonalSize (paneview w))] w),
     Ok tt).
Proof.
  unfold layout, width, height. run.
  destruct (decide (orientation (paneview w) = HORIZONTAL)); reflexivity.
Qed.

End Further.

(** ** The outcome of [fromJSON] *)

Section Outcome.
Context {E : Type} `{LayoutEngine E}.

Local Abbreviation W := (World E).

Lemma buildView_built (view : SerializedPaneviewPanel) (w : W) :
  resolvesView (options w) view = true ->
  exists panel,
    builtFrom (options w) panel view /\
    buildView view w
    = (set_heap (heap w ++ [panel]) w,
       Ok ({| descriptor_view_size := view_size view;
              descriptor_view := length (heap w) |},
           {| thunk_panel := length (heap w); thunk_view := view |})).
Proof.
  unfold resolvesView, buildView, builtFrom. run. intros Hres.
  destruct (createBody _ _ _) as [body | e]; [| discriminate].
  destruct (createHeader_from _ _ _) as [header | e]; [| discriminate].
  cbn. eexists. split; [| reflexivity]. eauto.
Qed.

Lemma buildView_error (view : SerializedPaneviewPanel) (w : W) :
  resolvesView (options w) view = false ->
  exists kind,
    (kind = data_component (view_data view) \/
     data_headerComponent (view_data view) = Some kind) /\
    buildView view w
    = (w, Throw (ResolutionError (data_id (view_data view)) kind)).
Proof.
  unfold resolvesView, buildView. run. intros Hres.
  destruct (createBody _ _ _) as [body | e] eqn:Hbody.
  - destruct (createHeader_from _ _ _) as [header | e] eqn:Hheader;
      [discriminate |].
    destruct (createHeader_from_error _ _ _ _ Hheader) as (kind & Hkind & ->).
    exists kind. auto.
  - apply createBody_error in Hbody as ->.
    exists (data_component (view_data view)). auto.
Qed.

(** [views.map] either builds a panel for every view, or stops at the first
    view that does not resolve, having built the panels of the views before
    it. *)
Lemma buildViews_outcome (views : list SerializedPaneviewPanel) (w : W) :
  (forallb (resolvesView (options w)) views = true /\
   exists panels,
     Forall2 (builtFrom (options w)) panels views /\
     mapM buildView views w
     = (set_heap (heap w ++ panels) w,
        Ok (builtViews (length (heap w)) views)))
  \/
  (forallb (resolvesView (options w)) views = false /\
   exists good bad rest panels kind,
     views = good ++ bad :: rest /\
     Forall2 (builtFrom (options w)) panels good /\
     resolvesView (options w) bad = false /\
     (kind = data_component (view_data bad) \/
      data_headerComponent (view_data bad) = Some kind) /\
     mapM buildView views w
     = (set_heap (heap w ++ panels) w,
        Throw (ResolutionError (data_id (view_data bad)) kind))).
Proof.
  revert w. induction views as [| view views IH]; intros w.
  - left. split; [reflexivity |]. exists []. split; [constructor |].
    cbn. rewrite app_nil_r. destruct w; reflexivity.
  - cbn [mapM forallb]. unfold bind, ret.
    destruct (resolvesView (options w) view) eqn:Hview; cbn [andb].
    + destruct (buildView_built view w Hview) as (panel & Hbuilt & ->).
      destruct (IH (set_heap (heap w ++ [panel]) w))
        as [(Hall & panels & Hpanels & ->)
           | (Hall & good & bad & rest & panels & kind & -> & Hpanels
              & Hbad & Hkind & ->)];
        cbn [options set_heap heap] in *.
      * left. split; [exact Hall |]. exists (panel :: panels).
        split; [constructor; assumption |].
        rewrite builtViews_cons, length_app, <- app_assoc. cbn [length app].
        replace (length (heap w) + 1)%nat with (S (length (heap w))) by lia.
        reflexivity.
      * right. split; [exact Hall |].
        exists (view :: good), bad, rest, (panel :: panels), kind.
        rewrite <- app_assoc. cbn [app].
        split; [reflexivity |]. split; [constructor; assumption |].
        split; [exact Hbad |]. split; [exact Hkind | reflexivity].
    + destruct (buildView_error view w Hview) as (kind & Hkind & ->).
      right. split; [reflexivity |].
      exists [], view, views, [], kind. cbn. rewrite app_nil_r.
      split; [reflexivity |]. split; [constructor |].
      split; [exact Hview |]. split; [exact Hkind |].
      destruct w; reflexivity.
Qed.

Lemma fromJSON_outcome (data : SerializedPaneview) (defer : option bool)
    (w : W) :
  (forallb (resolvesView (options w)) (doc_views data) = true /\
   exists panels,
     Forall2 (builtFrom (options w)) panels (doc_views data) /\
     fromJSON data defer w
     = (if truthy_bool defer
        then setTimeout (builtViews (length (heap w)) (doc_views data)).*2
               (swapped data panels w)
        else forEach runThunk
               (builtViews (length (heap w)) (doc_views data)).*2
               (swapped data panels w)))
  \/
  (forallb (resolvesView (options w)) (doc_views data) = false /\
   exists good bad rest panels kind,
     doc_views data = good ++ bad :: rest /\
     Forall2 (builtFrom (options w)) panels good /\
     resolvesView (options w) bad = false /\
     (kind = data_component (view_data bad) \/
      data_headerComponent (view_data bad) = Some kind) /\
     fromJSON data defer w
     = (torn panels w,
        Throw (ResolutionError (data_id (view_data bad)) kind))).
Proof.
  destruct (buildViews_outcome (doc_views data)
              (set_paneview (engineDispose (paneview w))
                 (logged [CallDispose] w)))
    as [(Hall & panels & Hpanels & Hmap)
       | (Hall & good & bad & rest & panels & kind & Hviews & Hpanels
          & Hbad & Hkind & Hmap)];
    cbn [options heap set_heap logged set_paneview] in *.
  - left. split; [exact Hall |]. exists panels. split; [exact Hpanels |].
    unfold fromJSON. cbv zeta. unfold bind at 1.
    rewrite callEngine_run. cbv beta iota. unfold bind at 1.
    rewrite Hmap. unfold bind at 1. rewrite callEngine_run. cbv beta iota.
    rewrite relayout_own_size.
    destruct (truthy_bool defer); f_equal;
      unfold swapped, newGeneration, set_paneview, set_heap, logged;
      cbn [paneview options parentElement heap timers trace];
      rewrite <- !app_assoc; reflexivity.
  - right. split; [exact Hall |]. exists good, bad, rest, panels, kind.
    split; [exact Hviews |]. split; [exact Hpanels |].
    split; [exact Hbad |]. split; [exact Hkind |].
    unfold fromJSON. cbv zeta. unfold bind at 1.
    rewrite callEngine_run. cbv beta iota. unfold bind at 1.
    rewrite Hmap. reflexivity.
Qed.

Lemma builtFrom_vertical (opts : PaneviewComponentOptions)
    (p : PaneFramework) (view : SerializedPaneviewPanel) :
  builtFrom opts p view -> panel_orientation p = VERTICAL.
Proof. intros (body & header & _ & _ & ->). reflexivity. Qed.


End Outcome.

Section FromJSON.
Context {E : Type} `{LayoutEngine E}.

Local Abbreviation W := (World E).





Lemma builtViews_descriptor_refs (base : nat)
    (views : list SerializedPaneviewPanel) :
  descriptor_view <$> (builtViews base views).*1 = seq base (length views).
Proof.
  revert base. induction views as [| v views IH]; intros base.
  - reflexivity.
  - rewrite builtViews_cons. cbn. f_equal. apply IH.
Qed.

(** X11: a deferred batch is not cancelled by a second [fromJSON].  After
    two deferred calls on an orchestrator with no pending timer, the engine
    is the one built from the second document, whose panels are all new, and
    no [init] has run; the first timer then initialises the panels of the
    first document, which are no longer in the engine, and the second timer
    those of the second document. *)
Theorem deferred_inits_survive_second_fromJSON (d1 d2 : SerializedPaneview)
    (w : W) :
  timers w = [] ->
  forallb (resolvesView (options w)) (doc_views d1) = true ->
  forallb (resolvesView (options w)) (doc_views d2) = true ->
  let base := length (heap w) in
  let n1 := length (doc_views d1) in
  let n2 := length (doc_views d2) in
  let w1 := (fromJSON d1 (Some true) w).1 in
  let w2 := (fromJSON d2 (Some true) w1).1 in
  let t1 := (runNextTimer w2).1 in
  let t2 := (runNextTimer t1).1 in
  let e := newPaneview (newGeneration (base + n1) d2) in
  (fromJSON d2 (Some true) w1).2 = Ok tt /\
  paneview w2 = engineLayout (engineSize e) (orthogonalSize e) e /\
  descriptor_view
    <$> from_option descriptor_views []
          (paneview_descriptor (newGeneration (base + n1) d2))
  = seq (base + n1) n2 /\
  inits (trace w2) = inits (trace w) /\
  inits (trace t1) = inits (trace w) ++ seq base n1 /\
  inits (trace t2) = inits (trace w) ++ seq base n1 ++ seq (base + n1) n2 /\
  timers t2 = [].
Proof.
  intros Hidle Hres1 Hres2. cbv zeta.
  destruct (fromJSON_outcome d1 (Some true) w)
    as [(_ & panels1 & Hbuilt1 & Hrun1) | (Hfalse & _)]; [| congruence].
  change (truthy_bool (Some true)) with true in Hrun1. cbv iota in Hrun1.
  rewrite Hrun1.
  set (w1 := (setTimeout (builtViews (length (heap w)) (doc_views d1)).*2
                (swapped d1 panels1 w)).1).
  assert (Hopts : options w1 = options w) by reflexivity.
  assert (Hheap : length (heap w1)
                  = (length (heap w) + length (doc_views d1))%nat).
  { subst w1. cbn. rewrite length_app.
    rewrite (Forall2_length _ _ _ Hbuilt1). reflexivity. }
  assert (Htimers : timers w1
                    = [(builtViews (length (heap w)) (doc_views d1)).*2]).
  { subst w1. cbn. rewrite Hidle. reflexivity. }
  assert (Hinits1 : inits (trace w1) = inits (trace w)).
  { subst w1. apply inits_deferred. }
  destruct (fromJSON_outcome d2 (Some true) w1)
    as [(_ & panels2 & _ & Hrun2) | (Hfalse & _)];
    [| rewrite Hopts in Hfalse; congruence].
  change (truthy_bool (Some true)) with true in Hrun2. cbv iota in Hrun2.
  rewrite Hrun2. clearbody w1. unfold setTimeout, swapped. run.
  rewrite !Hheap, Htimers. cbn [app].
  assert (Hinits2 : forall evs : list Event,
            inits evs = [] -> inits (trace w1 ++ evs) = inits (trace w)).
  { intros evs Hevs. rewrite inits_app, Hevs, app_nil_r. exact Hinits1. }
  split; [reflexivity |]. split; [reflexivity |].
  split.
  { cbn. apply builtViews_descriptor_refs. }
  split; [rewrite <- app_assoc; apply Hinits2; reflexivity |].
  match goal with |- context [runNextTimer (set_timers ?t ?x)] =>
    set (w2 := set_timers t x)
  end.
  assert (Hstep1 :
    runNextTimer w2
    = forEach runThunk (builtViews (length (heap w)) (doc_views d1)).*2
        (set_timers
           [(builtViews (length (heap w) + length (doc_views d1))
               (doc_views d2)).*2] w2)) by reflexivity.
  rewrite Hstep1.
  match goal with |- context [forEach runThunk ?q ?w0] =>
    destruct (runThunks_spec q w0) as (h1 & Hturn1 & _);
    pose proof (inits_runThunks q w0) as Hi1
  end.
  rewrite Hturn1 in Hi1 |- *. subst w2.
  cbn [fst trace timers set_timers logged] in Hi1 |- *.
  assert (Hbase : forall evs : list Event,
            inits evs = [] ->
            inits ((trace w1 ++ evs) ++ [CallSetTimeout 0])
            = inits (trace w)).
  { intros evs Hevs. rewrite <- app_assoc. apply Hinits2.
    rewrite inits_app, Hevs. reflexivity. }
  rewrite Hbase, builtViews_panels in Hi1 by reflexivity.
  split; [exact Hi1 |].
  unfold runNextTimer. cbn [timers].
  match goal with |- context [forEach runThunk ?q ?w0] =>
    destruct (runThunks_spec q w0) as (h2 & Hturn2 & _);
    pose proof (inits_runThunks q w0) as Hi2
  end.
  rewrite Hturn2 in Hi2 |- *.
  cbn [fst trace timers set_timers] in Hi2 |- *.
  rewrite Hi1, builtViews_panels in Hi2.
  split; [rewrite Hi2; symmetry; apply app_assoc | reflexivity].
Qed.

(** X12: after a deferred [fromJSON] and before its timer has run, a click
    on the default header of a new panel does nothing at all: the header was
    constructed without its control surface, which only [init] supplies. *)
Theorem click_before_deferred_init_is_noop (data : SerializedPaneview)
    (w : W) (i : nat) (view : SerializedPaneviewPanel) :
  forallb (resolvesView (options w)) (doc_views data) = true ->
  doc_views data !! i = Some view ->
  truthy_string (data_headerComponent (view_data view)) = false ->
  let w' := (fromJSON data (Some true) w).1 in
  clickHeader (length (heap w) + i)%nat w' = (w', Ok tt).
Proof.
  intros Hres Hview Hfalsy. cbv zeta.
  destruct (fromJSON_outcome data (Some true) w)
    as [(_ & panels & Hbuilt & ->) | (Hfalse & _)]; [| congruence].
  change (truthy_bool (Some true)) with true. cbv iota.
  destruct (Forall2_lookup_r _ _ _ _ _ Hbuilt Hview)
    as (p & Hp & body & header & _ & Hheader & ->).
  unfold createHeader_from in Hheader. rewrite Hfalsy in Hheader.
  injection Hheader as <-.
  unfold clickHeader, deref, setTimeout. run. unfold swapped. cbn [heap].
  rewrite lookup_app_r by lia.
  replace (length (heap w) + i - length (heap w))%nat with i by lia.
  rewrite Hp. reflexivity.
Qed.

End FromJSON.

(** ** Invariants of the reachable worlds *)

Section Invariants.
Context {E : Type} `{LayoutEngine E}.

Local Abbreviation W := (World E).

Lemma runThunks_heap_Forall (P : PaneFramework -> Prop)
    (queue : list InitThunk) (w : W) :
  (forall r params p, P p -> P (init_panel r params p)) ->
  Forall P (heap w) -> Forall P (heap (forEach runThunk queue w).1).
Proof.
  intros Hinit. revert w.
  induction queue as [| t queue IH]; intros w Hall; [exact Hall |].
  cbn [forEach]. unfold bind at 1. unfold runThunk at 1. run.
  apply IH. cbn [heap]. apply Forall_alter; [exact Hall |].
  intros p _. apply Hinit.
Qed.

End Invariants.

Section Vertical.
Context {E : Type} `{OrientationFixed E}.

Local Abbreviation W := (World E).

Lemma perform_panels_vertical (op : Op) (w : W) :
  orientation (paneview w) = VERTICAL ->
  Forall (fun p => panel_orientation p = VERTICAL) (heap w) ->
  Forall (fun p => panel_orientation p = VERTICAL) (heap (perform op w)).
Proof.
  intros Hengine Hall.
  assert (Hinit : forall r params p,
            panel_orientation p = VERTICAL ->
            panel_orientation (init_panel r params p) = VERTICAL)
    by (intros r params p Hp; exact Hp).
  destruct op as [o | panel | from to | width height | | data defer
                 | | panel | parent]; cbn [perform]; try exact Hall.
  - unfold addPanel. run.
    destruct (createBody _ _ _) as [body | e]; [| exact Hall].
    destruct (createHeader_add _ _ _) as [header | e]; [| exact Hall].
    cbn. apply Forall_alter.
    + apply Forall_alter; [| intros p _; apply Hinit].
      apply Forall_app. split; [exact Hall |].
      constructor; [reflexivity | constructor].
    + intros p _ _. cbn. rewrite orientation_addPane. exact Hengine.
  - unfold layout. run. destruct (decide _); exact Hall.
  - unfold resizeToFit, layout. run.
    destruct (parentElement w); [| exact Hall]. cbn.
    destruct (decide _); exact Hall.
  - assert (Hbuilt : forall panels views,
              Forall2 (builtFrom (options w)) panels views ->
              Forall (fun p => panel_orientation p = VERTICAL)
                (heap w ++ panels)).
    { intros panels views Hpanels. apply Forall_app. split; [exact Hall |].
      induction Hpanels as [| q v panels views Hq _ IH]; constructor.
      - exact (builtFrom_vertical _ _ _ Hq).
      - exact IH. }
    destruct (fromJSON_outcome data defer w)
      as [(_ & panels & Hpanels & ->)
         | (_ & good & bad & rest & panels & kind & _ & Hpanels & _ & _ & ->)].
    + destruct (truthy_bool defer).
      * exact (Hbuilt _ _ Hpanels).
      * apply runThunks_heap_Forall; [exact Hinit |].
        exact (Hbuilt _ _ Hpanels).
    + exact (Hbuilt _ _ Hpanels).
  - unfold runNextTimer. destruct (timers w) as [| queue rest]; [exact Hall |].
    apply runThunks_heap_Forall; [exact Hinit | exact Hall].
  - unfold clickHeader. destruct (panel_header (deref w panel)); [| exact Hall].
    unfold header_click, api_isExpanded, api_setExpanded.
    destruct (apiRef h); [| exact Hall]. run.
    apply Forall_alter; [exact Hall |]. intros q _ Hq. exact Hq.
Qed.

(** X14: every panel object of a reachable world, whether [addPanel] or
    [fromJSON] created it and whether or not it is still in the engine, has
    the vertical orientation. *)
Theorem reachable_panels_vertical (w : W) :
  reachable w ->
  Forall (fun p => panel_orientation p = VERTICAL) (heap w).
Proof.
  induction 1 as [parent opts | op w Hreach IH].
  - constructor.
  - apply perform_panels_vertical; [| exact IH].
    apply reachable_vertical. exact Hreach.
Qed.

(** X15: in a reachable world with a parent element, [resizeToFit] reads the
    parent's bounding box once and hands the engine the box's height as the
    size and its width as the orthogonal size. *)
Theorem resizeToFit_attached (w : W) (p : HTMLElement) :
  reachable w ->
  parentElement w = Some p ->
  resizeToFit w
  = (set_paneview
       (engineLayout (rect_height (boundingClientRect p))
          (rect_width (boundingClientRect p)) (paneview w))
       (logged [CallGetBoundingClientRect;
                CallLayout (rect_height (boundingClientRect p))
                  (rect_width (boundingClientRect p))] w),
     Ok tt).
Proof.
  intros Hreach Hparent. unfold resizeToFit, layout. run.
  rewrite Hparent. cbn. rewrite (reachable_vertical w Hreach).
  destruct (decide (VERTICAL = HORIZONTAL)); [discriminate |].
  unfold set_paneview, logged. cbn. rewrite <- app_assoc. reflexivity.
Qed.

End Vertical.

(** * Properties of the React tab renderer *)

Section ReactHeader.
Import ReactPanelHeaderPart.

(** X16: [init] constructs the part with the spread of [params] overridden
    by the panel's [api] and [containerApi]: these two props always carry the
    apis of the init parameters, also when [params] has keys of the same
    names, and every other prop is the param of that name. *)
Theorem react_init_props (parameters : GroupPanelPartInitParameters)
    (s : State) :
  exists p,
    part (self (init parameters s)) = Some (length (parts s)) /\
    parts (init parameters s) !! length (parts s) = Some p /\
    part_component p = component (self s) /\
    part_props p !! "api"%string = Some (PropApi (api parameters)) /\
    part_props p !! "containerApi"%string
    = Some (PropContainerApi (containerApi parameters)) /\
    forall k : string,
      k <> "api"%string -> k <> "containerApi"%string ->
      part_props p !! k = PropParam <$> params parameters !! k.
Proof.
  eexists. split; [reflexivity |].
  split; [cbn; rewrite lookup_app_r, Nat.sub_diag by lia; reflexivity |].
  split; [reflexivity |]. cbn. unfold props.
  split; [rewrite lookup_insert_ne, lookup_insert_eq by discriminate;
          reflexivity |].
  split; [rewrite lookup_insert_eq; reflexivity |].
  intros k Hapi Hcontainer.
  rewrite !lookup_insert_ne by congruence. apply lookup_fmap.
Qed.

Lemma react_disposes (n : nat) (s : State) :
  calls (replicate n CallDispose) s
  = match part (self s) with
    | Some r =>
        {| self := self s;
           parts := alter (fun p =>
                             {| part_component := part_component p;
                                part_props := part_props p;
                                part_disposed := (part_disposed p + n)%nat |})
                          r (parts s) |}
    | None => s
    end.
Proof.
  revert s. induction n as [| n IH]; intros s.
  - destruct s as [[i c [r |]] ps]; cbn; [| reflexivity].
    f_equal. symmetry.
    apply list_alter_id. intros [c' pr d]. cbn. f_equal. lia.
  - cbn [replicate calls foldl]. change (foldl _ ?x ?l) with (calls l x).
    rewrite IH. cbn [call]. unfold dispose.
    destruct s as [[i c [r |]] ps]; cbn; [| reflexivity].
    f_equal. rewrite list_alter_alter_eq.
    apply list_alter_ext; [| reflexivity].
    intros [c' pr d] _. cbn. unfold disposePart. cbn. f_equal. lia.
Qed.

(** X17: [dispose] forwards to the current part each time it is called.
    Before [init] there is no part and any number of calls changes nothing;
    after [init], [n] calls of [dispose] make [n] calls of the part's
    [dispose] (the reference to the part is not cleared), touch no other
    part and leave the renderer's own fields as they were. *)
Theorem react_dispose_each_time (n : nat) (s : State) :
  (part (self s) = None -> calls (replicate n CallDispose) s = s) /\
  (forall r p,
      part (self s) = Some r -> parts s !! r = Some p ->
      let s' := calls (replicate n CallDispose) s in
      self s' = self s /\
      (part_disposed <$> parts s' !! r) = Some (part_disposed p + n)%nat /\
      (part_props <$> parts s' !! r) = Some (part_props p) /\
      forall j, j <> r -> parts s' !! j = parts s !! j).
Proof.
  rewrite react_disposes. split.
  - intros ->. reflexivity.
  - intros r p -> Hp. cbn.
    split; [reflexivity |].
    rewrite list_lookup_alter, Hp.
    destruct (decide (r = r)); [| congruence]. cbn.
    split; [reflexivity |]. split; [reflexivity |].
    intros j Hj. apply list_lookup_alter_ne. congruence.
Qed.

(** A part that the renderer does not refer to stays as it is. *)
Lemma react_call_unreachable (c : Call) (k : nat) (s : State) :
  (k < length (parts s))%nat -> part (self s) <> Some k ->
  (k < length (parts (call c s)))%nat /\
  part (self (call c s)) <> Some k /\
  parts (call c s) !! k = parts s !! k.
Proof.
  intros Hk Hpart.
  destruct c; cbn [call];
    try (split; [exact Hk | split; [exact Hpart | reflexivity]]).
  - cbn. rewrite length_app. cbn.
    split; [lia |]. split; [intros [= Heq]; lia |].
    apply lookup_app_l. exact Hk.
  - unfold dispose. destruct (part (self s)) as [r |] eqn:Hr;
      [| split; [exact Hk | split; [rewrite Hr; discriminate | reflexivity]]].
    cbn. rewrite length_alter. split; [exact Hk |].
    split; [rewrite Hr; exact Hpart |].
    apply list_lookup_alter_ne. congruence.
Qed.

Lemma react_calls_unreachable (cs : list Call) (k : nat) (s : State) :
  (k < length (parts s))%nat -> part (self s) <> Some k ->
  parts (calls cs s) !! k = parts s !! k.
Proof.
  revert s. induction cs as [| c cs IH]; intros s Hk Hpart; [reflexivity |].
  cbn [calls foldl]. change (foldl _ ?x ?l) with (calls l x).
  destruct (react_call_unreachable c k s Hk Hpart) as (Hk' & Hpart' & <-).
  apply IH; assumption.
Qed.

(** X18: a second [init] replaces the part without disposing the first one,
    and the first part can no longer be reached: whatever calls follow
    (further [init]s and [dispose]s included), its [dispose] is never
    called. *)
Theorem react_second_init_abandons_first_part
    (p1 p2 : GroupPanelPartInitParameters) (cs : list Call) (s : State) :
  parts (calls cs (init p2 (init p1 s))) !! length (parts s)
  = Some {| part_component := component (self s);
            part_props := props p1; part_disposed := 0 |}.
Proof.
  rewrite react_calls_unreachable.
  - cbn. rewrite <- app_assoc, lookup_app_r, Nat.sub_diag by lia. reflexivity.
  - cbn. rewrite !length_app. cbn. lia.
  - cbn. rewrite length_app. cbn. intros [= Heq]. lia.
Qed.

(** X19: no call changes the renderer's id: after any sequence of calls
    [toJSON] returns the id that the constructor was given. *)
Theorem react_toJSON_is_constructor_id (id component : string)
    (ps : list ReactPart) (cs : list Call) :
  toJSON (calls cs (new id component ps)) = id.
Proof.
  assert (Hkeep : forall s, toJSON (calls cs s) = toJSON s).
  { induction cs as [| c cs IH]; intros s; [reflexivity |].
    cbn [calls foldl]. change (foldl _ ?x ?l) with (calls l x).
    rewrite IH. destruct c; cbn [call]; try reflexivity.
    unfold dispose. destruct (part (self s)); reflexivity. }
  rewrite Hkeep. reflexivity.
Qed.

End ReactHeader.

(** * The further properties at concrete inputs *)


Lemma addPanel_falsy_header_is_default_witness :
  truthy_string (add_headerComponent More.emptyHeader) = false /\
  exists d p h,
    (addPanel More.emptyHeader Sample.two).2 = Ok d /\
    panel_headerComponent p = Some EmptyString /\
    panel_header p = DefaultHeaderPart h.
Proof.
  split; [reflexivity |].
  assert (Hbody : isOk (createBody (options Sample.two)
                          (add_id More.emptyHeader)
                          (add_component More.emptyHeader)) = true)
    by (vm_compute; reflexivity).
  destruct (addPanel_falsy_header_is_default More.emptyHeader Sample.two
              eq_refl Hbody) as (d & p & h & Hd & _ & Hkind & Hheader & _).
  exists d, p, h. split; [exact Hd |]. split; [exact Hkind | exact Hheader].
Defined.

Lemma addPanel_allocates_one_panel_witness :
  resolvesAdd (options Sample.two) More.emptyHeader = true /\
  exists p,
    heap (addPanel More.emptyHeader Sample.two).1 = heap Sample.two ++ [p] /\
    panel_id p = "p3"%string.
Proof.
  assert (Hres : resolvesAdd (options Sample.two) More.emptyHeader = true)
    by (vm_compute; reflexivity).
  split; [exact Hres |].
  destruct (addPanel_allocates_one_panel More.emptyHeader Sample.two Hres)
    as (p & Hheap & Hid & _).
  exists p. split; [exact Hheap | exact Hid].
Defined.

Lemma removePanel_removes_first_occurrence_witness :
  getPanels Sample.two !! 1%nat = Some 1%nat /\
  removePanel 1%nat Sample.two
  = (set_paneview (removePane 1 (paneview Sample.two))
       (logged [CallRemovePane 1] Sample.two), Ok tt).
Proof.
  assert (Hk : getPanels Sample.two !! 1%nat = Some 1%nat)
    by (vm_compute; reflexivity).
  split; [exact Hk |].
  apply (removePanel_removes_first_occurrence 1%nat 1%nat Sample.two Hk).
  intros j Hj. assert (j = 0%nat) as -> by lia. vm_compute. discriminate.
Defined.

Lemma getPanel_first_match_witness :
  getPanel "p2" Sample.two = Some 1%nat /\
  panel_id (deref Sample.two 1%nat) = "p2"%string.
Proof.
  assert (Hget : getPanel "p2" Sample.two = Some 1%nat)
    by (vm_compute; reflexivity).
  split; [exact Hget |].
  pose proof (getPanel_first_match "p2" Sample.two) as Hfirst.
  rewrite Hget in Hfirst. destruct Hfirst as (k & _ & Hid & _). exact Hid.
Defined.

Lemma removePanel_of_getPanel_witness :
  getPanel "p2" Sample.two = Some 1%nat /\
  exists k : nat,
    removePanel 1%nat Sample.two
    = (set_paneview (removePane (Z.of_nat k) (paneview Sample.two))
         (logged [CallRemovePane (Z.of_nat k)] Sample.two), Ok tt).
Proof.
  assert (Hget : getPanel "p2" Sample.two = Some 1%nat)
    by (vm_compute; reflexivity).
  split; [exact Hget |].
  destruct (removePanel_of_getPanel "p2" 1%nat Sample.two Hget)
    as (k & _ & _ & Hrun).
  exists k. exact Hrun.
Defined.



Lemma deferred_inits_survive_second_fromJSON_witness :
  timers Sample.two = [] /\
  inits (trace (runNextTimer
                  (fromJSON More.de (Some true)
                     (fromJSON Sample.abc (Some true) Sample.two).1).1).1)
  = inits (trace Sample.two) ++ [2%nat; 3%nat; 4%nat].
Proof.
  split; [reflexivity |].
  assert (Habc : forallb (resolvesView (options Sample.two))
                   (doc_views Sample.abc) = true)
    by (vm_compute; reflexivity).
  assert (Hde : forallb (resolvesView (options Sample.two))
                  (doc_views More.de) = true)
    by (vm_compute; reflexivity).
  destruct (deferred_inits_survive_second_fromJSON Sample.abc More.de
              Sample.two eq_refl Habc Hde)
    as (_ & _ & _ & _ & Hfirst & _).
  exact Hfirst.
Defined.

Lemma click_before_deferred_init_is_noop_witness :
  doc_views Sample.abc !! 1%nat = Some (Sample.view "B" "text" 200) /\
  clickHeader 3%nat (fromJSON Sample.abc (Some true) Sample.two).1
  = ((fromJSON Sample.abc (Some true) Sample.two).1, Ok tt).
Proof.
  split; [reflexivity |].
  assert (Habc : forallb (resolvesView (options Sample.two))
                   (doc_views Sample.abc) = true)
    by (vm_compute; reflexivity).
  exact (click_before_deferred_init_is_noop Sample.abc Sample.two 1%nat
           (Sample.view "B" "text" 200) Habc eq_refl eq_refl).
Defined.

Lemma reachable_panels_vertical_witness :
  reachable Sample.two /\
  Forall (fun p => panel_orientation p = VERTICAL) (heap Sample.two).
Proof.
  split; [exact two_reachable |].
  exact (reachable_panels_vertical Sample.two two_reachable).
Defined.

Lemma resizeToFit_attached_witness :
  reachable Sample.two /\
  parentElement Sample.two = Some Sample.parent /\
  resizeToFit Sample.two
  = (set_paneview (engineLayout 600 300 (paneview Sample.two))
       (logged [CallGetBoundingClientRect; CallLayout 600 300] Sample.two),
     Ok tt).
Proof.
  split; [exact two_reachable |]. split; [reflexivity |].
  exact (resizeToFit_attached Sample.two Sample.parent two_reachable eq_refl).
Defined.

Lemma react_dispose_each_time_witness :
  ReactPanelHeaderPart.part (ReactPanelHeaderPart.self More.tab) = None /\
  ReactPanelHeaderPart.calls
    (replicate 2 ReactPanelHeaderPart.CallDispose) More.tab
  = More.tab /\
  (ReactPanelHeaderPart.part_disposed
     <$> ReactPanelHeaderPart.parts
           (ReactPanelHeaderPart.calls
              (replicate 2 ReactPanelHeaderPart.CallDispose)
              (ReactPanelHeaderPart.init More.tabParameters More.tab))
         !! 0%nat)
  = Some 2%nat.
Proof.
  split; [reflexivity |].
  split; [exact (proj1 (react_dispose_each_time 2 More.tab) eq_refl) |].
  destruct (proj2 (react_dispose_each_time 2
                     (ReactPanelHeaderPart.init More.tabParameters More.tab))
              0%nat _ eq_refl eq_refl) as (_ & Hcount & _).
  exact Hcount.
Defined.

Lemma react_init_props_witness :
  ReactPanelHeaderPart.params More.tabParameters !! "api"%string
  = Some (JsString "mine") /\
  exists p,
    ReactPanelHeaderPart.parts
      (ReactPanelHeaderPart.init More.tabParameters More.tab) !! 0%nat
    = Some p /\
    ReactPanelHeaderPart.part_props p !! "api"%string
    = Some (ReactPanelHeaderPart.PropApi
              (ReactPanelHeaderPart.mkGroupPanelApi 7)) /\
    ReactPanelHeaderPart.part_props p !! "title"%string
    = Some (ReactPanelHeaderPart.PropParam (JsString "Tab")).
Proof.
  split; [vm_compute; reflexivity |].
  destruct (react_init_props More.tabParameters More.tab)
    as (p & _ & Hp & _ & Hapi & _ & Hother).
  exists p. split; [exact Hp |]. split; [exact Hapi |].
  rewrite (Hother "title"%string) by discriminate.
  vm_compute. reflexivity.
Defined.
